(** * sigades-map: the geospatial and complaint services

    A shallow embedding of [app/models.py], [app/complaint_service.py] and
    [app/geo_service.py].  The relational store behind [get_session] is a
    record of finite maps keyed by primary key, the upload directory a
    finite map from paths to file contents, and every service method a
    computation in a state-and-exception monad over that record. *)

From Stdlib Require Import ZArith QArith Floats List String Ascii Lia.
From Stdlib.Strings Require Import Byte.
From Stdlib Require Import Permutation Sorted.
From stdpp Require Import gmap strings list fin_maps sorting pretty.

Close Scope Q_scope.
Open Scope Z_scope.
Open Scope string_scope.

(** ** Python built-ins the services rely on *)

Module Py.

(** [str.lower] on ASCII text: the letters A..Z move to a..z, every other
    character is kept. *)
Definition lower_char (c : ascii) : ascii :=
  let n := N_of_ascii c in
  if ((65 <=? n) && (n <=? 90))%N then ascii_of_N (n + 32) else c.

Fixpoint lower (s : string) : string :=
  match s with
  | EmptyString => EmptyString
  | String c s' => String (lower_char c) (lower s')
  end.

(** [sub in s] for a one-character [sub]. *)
Fixpoint contains_char (c : ascii) (s : string) : bool :=
  match s with
  | EmptyString => false
  | String d s' => if Ascii.eqb c d then true else contains_char c s'
  end.

(** [s.split(sep)] for a one-character separator: never the empty list. *)
Fixpoint split (sep : ascii) (s : string) : list string :=
  match s with
  | EmptyString => [EmptyString]
  | String c s' =>
      if Ascii.eqb c sep then EmptyString :: split sep s'
      else match split sep s' with
           | h :: t => String c h :: t
           | [] => [String c EmptyString]
           end
  end.

(** [xs[-1]] on a non-empty list of strings. *)
Definition last_item (xs : list string) : string := List.last xs EmptyString.

(** [s.endswith(suffix)]. *)
Definition endswith (s suffix : string) : bool :=
  let n := String.length s in
  let k := String.length suffix in
  if (k <=? n)%nat then String.eqb (substring (n - k) k s) suffix else false.

(** [len(b)] of a bytes object and [str(n)] of an int. *)
Definition len (b : list byte) : Z := Z.of_nat (List.length b).
Definition str_int (n : Z) : string := pretty n.

End Py.

(** ** JSON values held in the [geom_data] and [style_properties] columns *)

#[warnings="-register-all"]
Inductive Json : Type :=
| JBool (b : bool)
| JInt (n : Z)
| JFloat (x : float)
| JStr (s : string)
| JList (items : list Json)
| JDict (fields : list (string * Json)).

(** ** app/models.py *)

Inductive LayerType : Set :=
| RICE_FIELDS | IRRIGATION | REGENCY_ROADS | REGENCY_BOUNDARIES
| VILLAGE_BOUNDARIES | USER_UPLOADED.

Definition LayerType_value (t : LayerType) : string :=
  match t with
  | RICE_FIELDS => "rice_fields"
  | IRRIGATION => "irrigation"
  | REGENCY_ROADS => "regency_roads"
  | REGENCY_BOUNDARIES => "regency_boundaries"
  | VILLAGE_BOUNDARIES => "village_boundaries"
  | USER_UPLOADED => "user_uploaded"
  end.

Inductive FileType : Set := KML | KMZ | SHP.

Inductive ComplaintStatus : Set := SUBMITTED | REDIRECTED | COMPLETED.

(** [datetime] values are totally ordered instants; [Decimal] values are
    read by their exact numeric value. *)
Definition datetime : Set := Z.
Definition Decimal : Set := Q.

Record StaticLayer : Type := mkStaticLayer {
  sl_id : option Z;
  sl_name : string;
  sl_layer_type : LayerType;
  sl_description : string;
  sl_source : string;
  sl_geom_data : Json;
  sl_style_properties : Json;
  sl_is_active : bool;
  sl_display_order : Z;
  sl_created_at : datetime;
  sl_updated_at : datetime
}.

Record UserLayer : Type := mkUserLayer {
  ul_id : option Z;
  ul_name : string;
  ul_description : string;
  ul_file_type : FileType;
  ul_original_filename : string;
  ul_file_path : string;
  ul_file_size : Z;
  ul_geom_data : Json;
  ul_style_properties : Json;
  ul_is_public : bool;
  ul_is_active : bool;
  ul_upload_ip : option string;
  ul_created_at : datetime
}.

Record Complaint : Type := mkComplaint {
  c_id : option Z;
  c_title : string;
  c_description : string;
  c_latitude : Decimal;
  c_longitude : Decimal;
  c_location_description : string;
  c_submitter_name : option string;
  c_submitter_email : option string;
  c_submitter_phone : option string;
  c_status : ComplaintStatus;
  c_submit_ip : option string;
  c_facebook_redirected : bool;
  c_lapor_redirected : bool;
  c_created_at : datetime
}.

Record ComplaintPhoto : Type := mkComplaintPhoto {
  p_id : option Z;
  p_complaint_id : Z;
  p_filename : string;
  p_file_path : string;
  p_file_size : Z;
  p_mime_type : string;
  p_caption : string;
  p_display_order : Z;
  p_created_at : datetime
}.

Record ComplaintCreate : Type := mkComplaintCreate {
  cc_title : string;
  cc_description : string;
  cc_latitude : Decimal;
  cc_longitude : Decimal;
  cc_location_description : string;
  cc_submitter_name : option string;
  cc_submitter_email : option string;
  cc_submitter_phone : option string
}.

Record ComplaintPhotoResponse : Type := mkComplaintPhotoResponse {
  pr_id : Z;
  pr_filename : string;
  pr_file_path : string;
  pr_mime_type : string;
  pr_caption : string;
  pr_display_order : Z
}.

Record ComplaintResponse : Type := mkComplaintResponse {
  cr_id : Z;
  cr_title : string;
  cr_description : string;
  cr_latitude : Decimal;
  cr_longitude : Decimal;
  cr_location_description : string;
  cr_submitter_name : option string;
  cr_status : ComplaintStatus;
  cr_created_at : string;
  cr_photos : list ComplaintPhotoResponse
}.

Record LayerResponse : Type := mkLayerResponse {
  lr_id : Z;
  lr_name : string;
  lr_description : string;
  lr_layer_type : string;
  lr_is_active : bool;
  lr_geom_data : Json;
  lr_style_properties : Json;
  lr_created_at : string
}.

(** ** The world the services run in *)

(** Modelled from the spec: [app/database.py] ([get_session], the engine
    and its tables) is not among the sources.  The spec's persistent
    storage backend creates, reads and updates records and commits them
    transactionally; here it is one finite map per SQLModel table, keyed by
    primary key, that checks no constraint of its own.  Beside the tables
    the world holds the files under [uploads/], the directories created so
    far, the lines handed to [logging.error], and the clock: [clock k] is
    what the k-th call of [datetime.utcnow] returns. *)
Record World : Type := mkWorld {
  static_layers : gmap Z StaticLayer;
  user_layers : gmap Z UserLayer;
  complaints : gmap Z Complaint;
  complaint_photos : gmap Z ComplaintPhoto;
  files : gmap string (list byte);
  dirs : gset string;
  log : list string;
  clock : nat -> datetime;
  ticks : nat
}.

Definition with_static_layers (t : gmap Z StaticLayer) (w : World) : World :=
  mkWorld t (user_layers w) (complaints w) (complaint_photos w)
          (files w) (dirs w) (log w) (clock w) (ticks w).
Definition with_user_layers (t : gmap Z UserLayer) (w : World) : World :=
  mkWorld (static_layers w) t (complaints w) (complaint_photos w)
          (files w) (dirs w) (log w) (clock w) (ticks w).
Definition with_complaints (t : gmap Z Complaint) (w : World) : World :=
  mkWorld (static_layers w) (user_layers w) t (complaint_photos w)
          (files w) (dirs w) (log w) (clock w) (ticks w).
Definition with_complaint_photos (t : gmap Z ComplaintPhoto) (w : World) : World :=
  mkWorld (static_layers w) (user_layers w) (complaints w) t
          (files w) (dirs w) (log w) (clock w) (ticks w).
Definition with_files (f : gmap string (list byte)) (w : World) : World :=
  mkWorld (static_layers w) (user_layers w) (complaints w) (complaint_photos w)
          f (dirs w) (log w) (clock w) (ticks w).
Definition with_dirs (d : gset string) (w : World) : World :=
  mkWorld (static_layers w) (user_layers w) (complaints w) (complaint_photos w)
          (files w) d (log w) (clock w) (ticks w).
Definition with_log (l : list string) (w : World) : World :=
  mkWorld (static_layers w) (user_layers w) (complaints w) (complaint_photos w)
          (files w) (dirs w) l (clock w) (ticks w).
Definition with_ticks (n : nat) (w : World) : World :=
  mkWorld (static_layers w) (user_layers w) (complaints w) (complaint_photos w)
          (files w) (dirs w) (log w) (clock w) n.

Definition empty_world (clk : nat -> datetime) : World :=
  mkWorld ∅ ∅ ∅ ∅ ∅ ∅ [] clk 0%nat.

(** ** Exceptions and the service monad *)

Inductive Exn : Type :=
| ValueError (msg : string)
| BadZipFile (msg : string)
| KeyError (msg : string).

(** [str(e)]. *)
Definition str_exn (e : Exn) : string :=
  match e with
  | ValueError m | BadZipFile m | KeyError m => m
  end.

Inductive Outcome (A : Type) : Type :=
| Return (a : A)
| Raise (e : Exn).
Arguments Return {A} a.
Arguments Raise {A} e.

Definition M (A : Type) : Type := World -> Outcome A * World.

Definition ret {A} (a : A) : M A := fun w => (Return a, w).
Definition raise {A} (e : Exn) : M A := fun w => (Raise e, w).
Definition bind {A B} (m : M A) (k : A -> M B) : M B :=
  fun w => match m w with
           | (Return a, w') => k a w'
           | (Raise e, w') => (Raise e, w')
           end.
(** [try: body  except Exception as e: handler(e)]: what the body did to the
    world before it raised stays done. *)
Definition try_except {A} (body : M A) (handler : Exn -> M A) : M A :=
  fun w => match body w with
           | (Return a, w') => (Return a, w')
           | (Raise e, w') => handler e w'
           end.

Notation "x <- m ;; k" := (bind m (fun x => k))
  (at level 100, m at next level, right associativity).
Notation "m ;;; k" := (bind m (fun _ => k))
  (at level 100, right associativity).

Definition get_world : M World := fun w => (Return w, w).
Definition modify (f : World -> World) : M unit := fun w => (Return tt, f w).

(** [datetime.utcnow()]. *)
Definition utcnow : M datetime :=
  fun w => (Return (clock w (ticks w)), with_ticks (S (ticks w)) w).

(** [logging.error(line)]. *)
Definition logging_error (line : string) : M unit :=
  modify (fun w => with_log (log w ++ [line]) w).

(** [path.mkdir(parents=True, exist_ok=True)]. *)
Definition mkdir (path : string) : M unit :=
  modify (fun w => with_dirs ({[ path ]} ∪ dirs w) w).

(** [with open(path, "wb") as f: f.write(content)]. *)
Definition write_file (path : string) (content : list byte) : M unit :=
  modify (fun w => with_files (<[ path := content ]> (files w)) w).

(** Modelled from the spec: the primary key the storage backend hands to the
    next inserted row, one past the largest key in the table. *)
Definition next_id {A} (t : gmap Z A) : Z :=
  1 + foldr Z.max 0 ((map_to_list t).*1).

(** Modelled from the spec: [session.exec(select(T))] without a [where],
    every row of the table. *)
Definition select_all {A} (t : gmap Z A) : list A := (map_to_list t).*2.

(** [order_by(col(key))] and [order_by(col(key).desc())]: the rows in
    ascending, respectively descending, order of the key column. *)
Definition key_le {A} (key : A -> Z) : relation A := fun a b => key a <= key b.
Definition key_ge {A} (key : A -> Z) : relation A := fun a b => key b <= key a.

#[global] Instance key_le_dec {A} (key : A -> Z) (a b : A) :
  Decision (key_le key a b) := Z_le_dec (key a) (key b).
#[global] Instance key_ge_dec {A} (key : A -> Z) (a b : A) :
  Decision (key_ge key a b) := Z_le_dec (key b) (key a).

Definition order_by {A} (key : A -> Z) (rows : list A) : list A :=
  merge_sort (key_le key) rows.
Definition order_by_desc {A} (key : A -> Z) (rows : list A) : list A :=
  merge_sort (key_ge key) rows.

(** ** app/complaint_service.py *)

Definition UPLOAD_DIR : string := "uploads/complaint_photos".
Definition ALLOWED_PHOTO_TYPES : gset string :=
  {[ "image/jpeg"; "image/png"; "image/gif"; "image/webp" ]}.
Definition MAX_PHOTO_SIZE : Z := 5 * 1024 * 1024.

(** [path / name] for a plain file name. *)
Definition path_join (dir name : string) : string := dir +:+ "/" +:+ name.

Definition setup_upload_dir : M unit := mkdir UPLOAD_DIR.

Definition complaint_set_id (k : Z) (c : Complaint) : Complaint :=
  mkComplaint (Some k) (c_title c) (c_description c) (c_latitude c)
    (c_longitude c) (c_location_description c) (c_submitter_name c)
    (c_submitter_email c) (c_submitter_phone c) (c_status c) (c_submit_ip c)
    (c_facebook_redirected c) (c_lapor_redirected c) (c_created_at c).
Definition complaint_set_facebook_redirected (b : bool) (c : Complaint) : Complaint :=
  mkComplaint (c_id c) (c_title c) (c_description c) (c_latitude c)
    (c_longitude c) (c_location_description c) (c_submitter_name c)
    (c_submitter_email c) (c_submitter_phone c) (c_status c) (c_submit_ip c)
    b (c_lapor_redirected c) (c_created_at c).
Definition complaint_set_lapor_redirected (b : bool) (c : Complaint) : Complaint :=
  mkComplaint (c_id c) (c_title c) (c_description c) (c_latitude c)
    (c_longitude c) (c_location_description c) (c_submitter_name c)
    (c_submitter_email c) (c_submitter_phone c) (c_status c) (c_submit_ip c)
    (c_facebook_redirected c) b (c_created_at c).
Definition complaint_set_status (s : ComplaintStatus) (c : Complaint) : Complaint :=
  mkComplaint (c_id c) (c_title c) (c_description c) (c_latitude c)
    (c_longitude c) (c_location_description c) (c_submitter_name c)
    (c_submitter_email c) (c_submitter_phone c) s (c_submit_ip c)
    (c_facebook_redirected c) (c_lapor_redirected c) (c_created_at c).
Definition photo_set_id (k : Z) (p : ComplaintPhoto) : ComplaintPhoto :=
  mkComplaintPhoto (Some k) (p_complaint_id p) (p_filename p) (p_file_path p)
    (p_file_size p) (p_mime_type p) (p_caption p) (p_display_order p)
    (p_created_at p).

(** Modelled from the spec: [session.add(row); session.commit();
    session.refresh(row)] for a new row stores it under a fresh primary key,
    which the row then carries. *)
Definition session_add_complaint (c : Complaint) : M Complaint :=
  fun w =>
    let k := next_id (complaints w) in
    let c' := complaint_set_id k c in
    (Return c', with_complaints (<[ k := c' ]> (complaints w)) w).
Definition session_add_photo (p : ComplaintPhoto) : M ComplaintPhoto :=
  fun w =>
    let k := next_id (complaint_photos w) in
    let p' := photo_set_id k p in
    (Return p', with_complaint_photos (<[ k := p' ]> (complaint_photos w)) w).

(** Modelled from the spec: [session.get(Complaint, complaint_id)] reads the
    row under a primary key, if there is one. *)
Definition session_get_complaint (complaint_id : Z) : M (option Complaint) :=
  fun w => (Return (complaints w !! complaint_id), w).
(** Modelled from the spec: [session.add(complaint); session.commit()] for a
    row read from the table replaces the row under its primary key. *)
Definition session_update_complaint (complaint_id : Z) (c : Complaint) : M unit :=
  modify (fun w => with_complaints (<[ complaint_id := c ]> (complaints w)) w).

Definition create_complaint_body
    (complaint_data : ComplaintCreate) (submit_ip : option string) : M (option Complaint) :=
  now <- utcnow ;;
  let complaint :=
    mkComplaint None
      (cc_title complaint_data) (cc_description complaint_data)
      (cc_latitude complaint_data) (cc_longitude complaint_data)
      (cc_location_description complaint_data)
      (cc_submitter_name complaint_data) (cc_submitter_email complaint_data)
      (cc_submitter_phone complaint_data)
      SUBMITTED submit_ip false false now in
  stored <- session_add_complaint complaint ;;
  ret (Some stored).

Definition create_complaint
    (complaint_data : ComplaintCreate) (submit_ip : option string) : M (option Complaint) :=
  try_except (create_complaint_body complaint_data submit_ip)
    (fun e => logging_error ("Error creating complaint: " +:+ str_exn e) ;;; ret None).

(** Lines 201-210 of [mark_redirected]: what happens to the row between
    [session.get] and [session.add]. *)
Definition apply_redirect (platform : string) (complaint : Complaint) : Complaint :=
  let complaint :=
    if String.eqb (Py.lower platform) "facebook"
    then complaint_set_facebook_redirected true complaint
    else if String.eqb (Py.lower platform) "lapor"
         then complaint_set_lapor_redirected true complaint
         else complaint in
  if c_facebook_redirected complaint && c_lapor_redirected complaint
  then complaint_set_status COMPLETED complaint
  else complaint_set_status REDIRECTED complaint.

Definition mark_redirected_body (complaint_id : Z) (platform : string) : M bool :=
  found <- session_get_complaint complaint_id ;;
  match found with
  | None => ret false
  | Some complaint =>
      session_update_complaint complaint_id (apply_redirect platform complaint) ;;;
      ret true
  end.

Definition mark_redirected (complaint_id : Z) (platform : string) : M bool :=
  try_except (mark_redirected_body complaint_id platform)
    (fun e =>
       logging_error ("Error marking complaint as redirected: " +:+ str_exn e) ;;;
       ret false).

Definition photo_response (photo : ComplaintPhoto) : ComplaintPhotoResponse :=
  mkComplaintPhotoResponse (default 0 (p_id photo)) (p_filename photo)
    (p_file_path photo) (p_mime_type photo) (p_caption photo)
    (p_display_order photo).

(** [select(ComplaintPhoto).where(complaint_id == cid).order_by(display_order)]. *)
Definition photos_of (cid : option Z) (w : World) : list ComplaintPhoto :=
  order_by p_display_order
    (List.filter (fun p => bool_decide (Some (p_complaint_id p) = cid))
       (select_all (complaint_photos w))).

(** The WHERE clause of [get_complaints_in_area], on the bounds already
    turned into decimals. *)
Definition in_area (south west north east : Decimal) (c : Complaint) : bool :=
  Qle_bool south (c_latitude c) && Qle_bool (c_latitude c) north
  && Qle_bool west (c_longitude c) && Qle_bool (c_longitude c) east.

Section ComplaintService.

(** Python's [hash] on [str], [datetime.isoformat], and [Decimal(str(x))]
    of a float are the interpreter's: the services are stated over
    whatever they compute. *)
Variable hash : string -> Z.
Variable isoformat : datetime -> string.
Variable Decimal_of_str : float -> Decimal.

Definition photo_file_path (complaint_id : Z) (file_content : list byte)
    (filename : string) : string :=
  let file_extension :=
    if Py.contains_char "." filename
    then Py.last_item (Py.split "." filename) else "jpg" in
  let safe_filename :=
    "complaint_" +:+ Py.str_int complaint_id +:+ "_"
    +:+ Py.str_int (hash (filename +:+ Py.str_int (Py.len file_content)))
    +:+ "." +:+ file_extension in
  path_join UPLOAD_DIR safe_filename.

(** The [try] block of [add_photo_to_complaint]. *)
Definition add_photo_body (complaint_id : Z) (file_content : list byte)
    (filename mime_type caption : string) (display_order : Z)
    : M (option ComplaintPhoto) :=
  (if bool_decide (mime_type ∈ ALLOWED_PHOTO_TYPES) then ret tt
   else raise (ValueError ("Unsupported file type: " +:+ mime_type))) ;;;
  (if (MAX_PHOTO_SIZE <? Py.len file_content)%Z
   then raise (ValueError "File size exceeds maximum limit (5MB)")
   else ret tt) ;;;
  setup_upload_dir ;;;
  let file_path := photo_file_path complaint_id file_content filename in
  write_file file_path file_content ;;;
  now <- utcnow ;;
  let photo :=
    mkComplaintPhoto None complaint_id filename file_path
      (Py.len file_content) mime_type caption display_order now in
  stored <- session_add_photo photo ;;
  ret (Some stored).

Definition add_photo_to_complaint (complaint_id : Z) (file_content : list byte)
    (filename mime_type caption : string) (display_order : Z)
    : M (option ComplaintPhoto) :=
  try_except
    (add_photo_body complaint_id file_content filename mime_type caption
       display_order)
    (fun e =>
       logging_error ("Error adding photo to complaint: " +:+ str_exn e) ;;;
       ret None).

Definition complaint_response (w : World) (complaint : Complaint) : ComplaintResponse :=
  mkComplaintResponse (default 0 (c_id complaint)) (c_title complaint)
    (c_description complaint) (c_latitude complaint) (c_longitude complaint)
    (c_location_description complaint) (c_submitter_name complaint)
    (c_status complaint) (isoformat (c_created_at complaint))
    (List.map photo_response (photos_of (c_id complaint) w)).

(** The rows the query of [get_complaints_in_area] selects, in order. *)
Definition complaints_in_area (south west north east : float) (w : World)
    : list Complaint :=
  order_by_desc c_created_at
    (List.filter
       (in_area (Decimal_of_str south) (Decimal_of_str west)
                (Decimal_of_str north) (Decimal_of_str east))
       (select_all (complaints w))).

Definition get_complaints_in_area (south west north east : float) (w : World)
    : list ComplaintResponse :=
  List.map (complaint_response w) (complaints_in_area south west north east w).

End ComplaintService.

(** ** app/geo_service.py *)

Set Warnings "-inexact-float".

Definition USER_LAYER_DIR : string := "uploads/user_layers".

Definition obind {A B} (o : Outcome A) (k : A -> Outcome B) : Outcome B :=
  match o with
  | Return a => k a
  | Raise e => Raise e
  end.

(** A computation that touches nothing, run inside a service method. *)
Definition lift {A} (o : Outcome A) : M A := fun w => (o, w).

Fixpoint for_each {A} (xs : list A) (f : A -> M unit) : M unit :=
  match xs with
  | [] => ret tt
  | x :: rest => f x ;;; for_each rest f
  end.

Definition static_layer_set_id (k : Z) (l : StaticLayer) : StaticLayer :=
  mkStaticLayer (Some k) (sl_name l) (sl_layer_type l) (sl_description l)
    (sl_source l) (sl_geom_data l) (sl_style_properties l) (sl_is_active l)
    (sl_display_order l) (sl_created_at l) (sl_updated_at l).
Definition user_layer_set_id (k : Z) (l : UserLayer) : UserLayer :=
  mkUserLayer (Some k) (ul_name l) (ul_description l) (ul_file_type l)
    (ul_original_filename l) (ul_file_path l) (ul_file_size l)
    (ul_geom_data l) (ul_style_properties l) (ul_is_public l)
    (ul_is_active l) (ul_upload_ip l) (ul_created_at l).

(** Modelled from the spec: [session.add(layer)] for a new layer, committed
    with the rest of the session; keys are handed out in the order of the
    additions. *)
Definition session_add_static_layer (l : StaticLayer) : M unit :=
  modify (fun w =>
    let k := next_id (static_layers w) in
    with_static_layers (<[ k := static_layer_set_id k l ]> (static_layers w)) w).
Definition session_add_user_layer (l : UserLayer) : M UserLayer :=
  fun w =>
    let k := next_id (user_layers w) in
    let l' := user_layer_set_id k l in
    (Return l', with_user_layers (<[ k := l' ]> (user_layers w)) w).

Definition get_west_lombok_bounds : list (string * float) :=
  [("south", (-8.8)%float); ("west", 115.9%float);
   ("north", (-8.3)%float); ("east", 116.4%float)].

Definition get_default_map_center : float * float := ((-8.55)%float, 116.15%float).

Definition bound (key : string) : float :=
  default 0%float (snd <$> List.find (fun kv => String.eqb (fst kv) key)
                                     get_west_lombok_bounds).

Definition validate_coordinates (latitude longitude : float) : bool :=
  (bound "south" <=? latitude)%float && (latitude <=? bound "north")%float
  && (bound "west" <=? longitude)%float && (longitude <=? bound "east")%float.

(** The stub parsers: the file content is not looked at, and nothing in
    their [try] blocks can raise. *)
Definition process_kml_file (file_content : list byte) (filename : string)
    : Outcome Json :=
  Return (JDict [("type", JStr "FeatureCollection");
                 ("features", JList []);
                 ("metadata", JDict [("source_file", JStr filename);
                                     ("processed", JBool true);
                                     ("format", JStr "kml")])]).

Definition process_shp_file (file_content : list byte) (filename : string)
    : Outcome Json :=
  Return (JDict [("type", JStr "FeatureCollection");
                 ("features", JList []);
                 ("metadata", JDict [("source_file", JStr filename);
                                     ("processed", JBool true);
                                     ("format", JStr "shapefile")])]).

(** An opened [zipfile.ZipFile]: its entries in directory order. *)
Definition ZipArchive : Type := list (string * list byte).

(** [kmz.namelist()]. *)
Definition namelist (kmz : ZipArchive) : list string := kmz.*1.

(** [kmz.read(name)]: the archive's name table keeps, for a name, the entry
    listed last under it. *)
Definition zip_read (kmz : ZipArchive) (name : string) : Outcome (list byte) :=
  match List.find (fun e => String.eqb (fst e) name) (rev kmz) with
  | Some e => Return (snd e)
  | None => Raise (KeyError ("There is no item named " +:+ name +:+ " in the archive"))
  end.

Definition _get_default_style (file_type : FileType) : Json :=
  match file_type with
  | KML => JDict [("color", JStr "#3388ff"); ("weight", JInt 3);
                  ("opacity", JFloat 0.8); ("fillColor", JStr "#3388ff");
                  ("fillOpacity", JFloat 0.2)]
  | KMZ => JDict [("color", JStr "#ff7800"); ("weight", JInt 3);
                  ("opacity", JFloat 0.8); ("fillColor", JStr "#ff7800");
                  ("fillOpacity", JFloat 0.2)]
  | SHP => JDict [("color", JStr "#ff3333"); ("weight", JInt 3);
                  ("opacity", JFloat 0.8); ("fillColor", JStr "#ff3333");
                  ("fillOpacity", JFloat 0.2)]
  end.

(** [calculate_area]: the loop over [range(n)], with [j = (i + 1) % n], in
    binary64 arithmetic. *)
Definition shoelace_step (coordinates : list (float * float)) (n : nat)
    (area : float) (i : nat) : float :=
  let j := ((i + 1) mod n)%nat in
  let pi := nth i coordinates (0%float, 0%float) in
  let pj := nth j coordinates (0%float, 0%float) in
  let area := (area + fst pi * snd pj)%float in
  (area - fst pj * snd pi)%float.

Definition calculate_area (coordinates : list (float * float)) : float :=
  if (List.length coordinates <? 3)%nat then 0%float
  else
    let n := List.length coordinates in
    let area := fold_left (shoelace_step coordinates n) (seq 0 n) 0%float in
    (abs area / 2)%float.

(** The catalog embedded in [seed_default_layers]: name, layer type,
    description, display order, style. *)
Definition default_layers : list (string * LayerType * string * Z * Json) :=
  [ ("Sawah (Rice Fields)", RICE_FIELDS,
     "Peta sebaran lahan sawah di Kabupaten Lombok Barat", 1,
     JDict [("color", JStr "#4CAF50"); ("weight", JInt 2);
            ("opacity", JFloat 0.8); ("fillColor", JStr "#81C784");
            ("fillOpacity", JFloat 0.6)]);
    ("Irigasi (Irrigation)", IRRIGATION,
     "Jaringan sistem irigasi di Kabupaten Lombok Barat", 2,
     JDict [("color", JStr "#2196F3"); ("weight", JInt 3);
            ("opacity", JFloat 0.9); ("fillColor", JStr "#64B5F6");
            ("fillOpacity", JFloat 0.4)]);
    ("Jalan Kabupaten (Regency Roads)", REGENCY_ROADS,
     "Jaringan jalan kabupaten di Lombok Barat", 3,
     JDict [("color", JStr "#FF9800"); ("weight", JInt 4);
            ("opacity", JFloat 1.0)]);
    ("Batas Kabupaten (Regency Boundaries)", REGENCY_BOUNDARIES,
     "Batas administrasi Kabupaten Lombok Barat", 4,
     JDict [("color", JStr "#9C27B0"); ("weight", JInt 3);
            ("opacity", JFloat 1.0); ("fillColor", JStr "#CE93D8");
            ("fillOpacity", JFloat 0.1)]);
    ("Batas Desa (Village Boundaries)", VILLAGE_BOUNDARIES,
     "Batas administrasi desa di Kabupaten Lombok Barat", 5,
     JDict [("color", JStr "#607D8B"); ("weight", JInt 2);
            ("opacity", JFloat 0.8); ("fillColor", JStr "#90A4AE");
            ("fillOpacity", JFloat 0.2)]) ].

(** The placeholder geometry every seeded layer starts with. *)
Definition empty_feature_collection : Json :=
  JDict [("type", JStr "FeatureCollection"); ("features", JList [])].

Definition seed_layer (layer_data : string * LayerType * string * Z * Json) : M unit :=
  let '(name, layer_type, description, display_order, style_properties) :=
    layer_data in
  created <- utcnow ;;
  updated <- utcnow ;;
  session_add_static_layer
    (mkStaticLayer None name layer_type description "BIG"
       empty_feature_collection style_properties true display_order
       created updated).

Definition seed_default_layers : M unit :=
  w <- get_world ;;
  match head (select_all (static_layers w)) with
  | Some _ => ret tt
  | None => for_each default_layers seed_layer
  end.

Section GeospatialService.

Variable hash : string -> Z.
Variable isoformat : datetime -> string.
(** [zipfile.ZipFile] on the uploaded bytes: the archive, or the error the
    library raises on bytes that are no archive. *)
Variable ZipFile : list byte -> Outcome ZipArchive.

Definition static_layer_response (layer : StaticLayer) : LayerResponse :=
  mkLayerResponse (default 0 (sl_id layer)) (sl_name layer)
    (sl_description layer) (LayerType_value (sl_layer_type layer))
    (sl_is_active layer) (sl_geom_data layer) (sl_style_properties layer)
    (isoformat (sl_created_at layer)).

Definition user_layer_response (layer : UserLayer) : LayerResponse :=
  mkLayerResponse (default 0 (ul_id layer)) (ul_name layer)
    (ul_description layer) "user_uploaded"
    (ul_is_active layer) (ul_geom_data layer) (ul_style_properties layer)
    (isoformat (ul_created_at layer)).

(** The two queries of [get_all_active_layers]. *)
Definition active_static_layers (w : World) : list StaticLayer :=
  order_by sl_display_order
    (List.filter sl_is_active (select_all (static_layers w))).
Definition public_user_layers (w : World) : list UserLayer :=
  order_by_desc ul_created_at
    (List.filter (fun l => ul_is_active l && ul_is_public l)
       (select_all (user_layers w))).

Definition get_all_active_layers (w : World) : list LayerResponse :=
  (List.map static_layer_response (active_static_layers w)
   ++ List.map user_layer_response (public_user_layers w))%list.

(** The [try] block of [process_kmz_file]. *)
Definition process_kmz_body (file_content : list byte) (filename : string)
    : Outcome Json :=
  obind (ZipFile file_content) (fun kmz =>
    let kml_files := List.filter (fun f => Py.endswith f ".kml") (namelist kmz) in
    match kml_files with
    | [] => Raise (ValueError "No KML files found in KMZ archive")
    | first :: _ =>
        obind (zip_read kmz first) (fun kml_content =>
          process_kml_file kml_content first)
    end).

Definition process_kmz_file (file_content : list byte) (filename : string)
    : Outcome Json :=
  match process_kmz_body file_content filename with
  | Return geom => Return geom
  | Raise e => Raise (ValueError ("Failed to process KMZ file: " +:+ str_exn e))
  end.

Definition user_layer_file_path (file_content : list byte) (filename : string)
    : string :=
  path_join USER_LAYER_DIR
    (Py.str_int (hash (filename +:+ Py.str_int (Py.len file_content)))
     +:+ "-" +:+ filename).

(** The [try] block of [save_user_layer].  A [FileType] is one of the three
    cases of the [match]; its [case _] is out of reach. *)
Definition save_user_layer_body (file_content : list byte) (filename : string)
    (file_type : FileType) (name description : string) (is_public : bool)
    (upload_ip : option string) : M (option UserLayer) :=
  geom_data <- lift (match file_type with
                     | KML => process_kml_file file_content filename
                     | KMZ => process_kmz_file file_content filename
                     | SHP => process_shp_file file_content filename
                     end) ;;
  mkdir USER_LAYER_DIR ;;;
  let file_path := user_layer_file_path file_content filename in
  write_file file_path file_content ;;;
  now <- utcnow ;;
  let user_layer :=
    mkUserLayer None name description file_type filename file_path
      (Py.len file_content) geom_data (_get_default_style file_type)
      is_public true upload_ip now in
  stored <- session_add_user_layer user_layer ;;
  ret (Some stored).

Definition save_user_layer (file_content : list byte) (filename : string)
    (file_type : FileType) (name description : string) (is_public : bool)
    (upload_ip : option string) : M (option UserLayer) :=
  try_except
    (save_user_layer_body file_content filename file_type name description
       is_public upload_ip)
    (fun e => logging_error ("Error saving user layer: " +:+ str_exn e) ;;; ret None).

End GeospatialService.

(** ** app/complaint_service.py: the read side *)

(** [order_by(col(key1), col(key2))]: ascending in the first column, ties
    broken by the second. *)
Definition key2_le {A} (key1 key2 : A -> Z) : relation A :=
  fun a b => key1 a < key1 b \/ (key1 a = key1 b /\ key2 a <= key2 b).

#[global] Instance key2_le_dec {A} (key1 key2 : A -> Z) (a b : A) :
  Decision (key2_le key1 key2 a b).
Proof. unfold key2_le. apply _. Defined.

Definition order_by2 {A} (key1 key2 : A -> Z) (rows : list A) : list A :=
  merge_sort (key2_le key1 key2) rows.

(** [select(ComplaintPhoto).where(complaint_id == complaint_id)
    .order_by(display_order, created_at)] of [get_complaint]. *)
Definition photos_by_order_and_time (complaint_id : Z) (w : World)
    : list ComplaintPhoto :=
  order_by2 p_display_order p_created_at
    (List.filter (fun p => Z.eqb (p_complaint_id p) complaint_id)
       (select_all (complaint_photos w))).

Section ComplaintQueries.

Variable isoformat : datetime -> string.

Definition get_complaint (complaint_id : Z) (w : World) : option ComplaintResponse :=
  match complaints w !! complaint_id with
  | None => None
  | Some complaint =>
      Some (mkComplaintResponse (default 0 (c_id complaint)) (c_title complaint)
              (c_description complaint) (c_latitude complaint)
              (c_longitude complaint) (c_location_description complaint)
              (c_submitter_name complaint) (c_status complaint)
              (isoformat (c_created_at complaint))
              (List.map photo_response
                 (photos_by_order_and_time complaint_id w)))
  end.

(** The rows [get_recent_complaints] selects: [.order_by(created_at.desc())
    .limit(limit)].  The limit is a natural number; what a negative LIMIT
    means is the database's. *)
Definition recent_complaints (limit : nat) (w : World) : list Complaint :=
  take limit (order_by_desc c_created_at (select_all (complaints w))).

Definition get_recent_complaints (limit : nat) (w : World) : list ComplaintResponse :=
  List.map (complaint_response isoformat w) (recent_complaints limit w).

End ComplaintQueries.

(** ** app/mapping.py: the handlers that call the services *)

(** What a handler does to the page: [ui.notify(message, type=kind)],
    clearing the upload form, [ui.run_javascript(code)], closing the dialog,
    opening the redirect dialog, [ui.navigate.to(url, new_tab=True)]. *)
Inductive UiEvent : Type :=
| Notify (message kind : string)
| ClearUploadForm
| RunJavascript (code : string)
| CloseDialog
| ShowRedirectDialog (complaint_id : Z)
| NavigateTo (url : string).

(** The double quote character, for the messages that quote a name. *)
Definition dquote : string := String (ascii_of_nat 34) EmptyString.

(** app/models.py: the values of the [FileType] enumeration. *)
Definition FileType_value (t : FileType) : string :=
  match t with
  | KML => "kml"
  | KMZ => "kmz"
  | SHP => "shp"
  end.

(** [refresh_layers]. *)
Definition refresh_layers : list UiEvent :=
  [Notify "Memuat ulang layer..." "info"; RunJavascript "loadMapLayers();"].

(** [filename.split(".")[-1].lower() if "." in filename else ""] *)
Definition upload_extension (filename : string) : string :=
  if Py.contains_char "." filename
  then Py.lower (Py.last_item (Py.split "." filename)) else "".

(** [value or None] on the text of an input. *)
Definition or_none (value : string) : option string :=
  if String.eqb value "" then None else Some value.

(** One entry of [photo_upload.value]: [content] is absent when the entry
    has no such attribute; an empty [type] is falsy. *)
Record FileInfo : Type := mkFileInfo {
  fi_content : option (list byte);
  fi_name : string;
  fi_type : string
}.

(** [enumerate(xs)]. *)
Definition enumerate {A} (xs : list A) : list (nat * A) :=
  imap (fun i x => (i, x)) xs.

Section Handlers.

Variable hash : string -> Z.
Variable Decimal_of_str : float -> Decimal.
Variable ZipFile : list byte -> Outcome ZipArchive.

(** The [try] block of [handle_file_upload], on the values of the form's
    inputs and the uploaded file's name and bytes. *)
Definition handle_file_upload (name_value desc_value : string)
    (public_value : bool) (e_name : string) (e_content : list byte)
    : M (list UiEvent) :=
  if String.eqb name_value "" then
    ret [Notify "Nama layer harus diisi" "negative"]
  else
    let filename := e_name in
    let file_extension := upload_extension filename in
    if negb (bool_decide (file_extension ∈ ["kml"; "kmz"; "shp"])) then
      ret [Notify "Format file tidak didukung. Gunakan KML, KMZ, atau SHP"
             "negative"]
    else
      let file_type :=
        if String.eqb file_extension "kml" then KML
        else if String.eqb file_extension "kmz" then KMZ else SHP in
      layer <- save_user_layer hash ZipFile e_content filename file_type
                 name_value desc_value public_value None ;;
      match layer with
      | Some _ =>
          ret (Notify ("Layer " +:+ dquote +:+ name_value +:+ dquote
                       +:+ " berhasil diunggah!") "positive"
               :: ClearUploadForm :: refresh_layers)
      | None => ret [Notify "Gagal mengunggah layer. Coba lagi." "negative"]
      end.

(** The loop of [submit_complaint] over [enumerate(photo_upload.value)]. *)
Fixpoint attach_photos (complaint_id : Z) (items : list (nat * FileInfo))
    : M unit :=
  match items with
  | [] => ret tt
  | (i, file_info) :: rest =>
      match fi_content file_info with
      | Some content =>
          add_photo_to_complaint hash complaint_id content (fi_name file_info)
            (if String.eqb (fi_type file_info) "" then "image/jpeg"
             else fi_type file_info)
            "" (Z.of_nat i) ;;;
          attach_photos complaint_id rest
      | None => attach_photos complaint_id rest
      end
  end.

(** The [try] block of [submit_complaint], on the values of the form's
    inputs; [photo_upload_value] is absent when the upload element has no
    [value] (an empty list, falsy in the source, gives a loop that does
    nothing).  The location is the handler's fixed one. *)
Definition submit_complaint (title_value desc_value location_desc_value
    name_value email_value phone_value : string)
    (photo_upload_value : option (list FileInfo)) : M (list UiEvent) :=
  if String.eqb title_value "" || String.eqb desc_value "" then
    ret [Notify "Judul dan deskripsi harus diisi" "negative"]
  else
    let complaint_data :=
      mkComplaintCreate title_value desc_value
        (Decimal_of_str (-8.55)%float) (Decimal_of_str 116.15%float)
        location_desc_value (or_none name_value) (or_none email_value)
        (or_none phone_value) in
    complaint <- create_complaint complaint_data None ;;
    match complaint ≫= c_id with
    | None => ret [Notify "Gagal menyimpan laporan" "negative"]
    | Some complaint_id =>
        match photo_upload_value with
        | Some files => attach_photos complaint_id (enumerate files)
        | None => ret tt
        end ;;;
        ret [CloseDialog; ShowRedirectDialog complaint_id]
    end.

End Handlers.

(** [redirect_to_facebook] and [redirect_to_lapor]. *)
Definition redirect_to_facebook (complaint_id : Z) : M (list UiEvent) :=
  mark_redirected complaint_id "facebook" ;;;
  ret [NavigateTo "https://www.facebook.com"; CloseDialog;
       Notify "Redirected to Facebook" "info"].

Definition redirect_to_lapor (complaint_id : Z) : M (list UiEvent) :=
  mark_redirected complaint_id "lapor" ;;;
  ret [NavigateTo "https://www.lapor.go.id"; CloseDialog;
       Notify "Redirected to Lapor.go.id" "info"].

(** * Specification-side notions *)

(** ** The redirect state machine *)

(** The status the two redirect flags call for. *)
Definition status_of_flags (facebook lapor : bool) : ComplaintStatus :=
  match facebook, lapor with
  | false, false => SUBMITTED
  | true, true => COMPLETED
  | _, _ => REDIRECTED
  end.

Definition status_matches_flags (c : Complaint) : Prop :=
  c_status c = status_of_flags (c_facebook_redirected c) (c_lapor_redirected c).

Definition store_matches_flags (w : World) : Prop :=
  forall k c, complaints w !! k = Some c -> status_matches_flags c.

(** A platform name [mark_redirected] recognises, in any letter case. *)
Definition known_platform (platform : string) : Prop :=
  Py.lower platform = "facebook" \/ Py.lower platform = "lapor".

(** The calls a client can make on the complaint service that change the
    store. *)
Inductive ComplaintCall : Type :=
| CallCreate (complaint_data : ComplaintCreate) (submit_ip : option string)
| CallAddPhoto (complaint_id : Z) (file_content : list byte)
    (filename mime_type caption : string) (display_order : Z)
| CallMarkRedirected (complaint_id : Z) (platform : string).

Definition redirects_known (call : ComplaintCall) : Prop :=
  match call with
  | CallMarkRedirected _ platform => known_platform platform
  | _ => True
  end.

Section ComplaintRuns.

Variable hash : string -> Z.

Definition run_call (w : World) (call : ComplaintCall) : World :=
  match call with
  | CallCreate complaint_data submit_ip =>
      snd (create_complaint complaint_data submit_ip w)
  | CallAddPhoto complaint_id file_content filename mime_type caption display_order =>
      snd (add_photo_to_complaint hash complaint_id file_content filename
             mime_type caption display_order w)
  | CallMarkRedirected complaint_id platform =>
      snd (mark_redirected complaint_id platform w)
  end.

Definition run_calls (calls : list ComplaintCall) (w : World) : World :=
  fold_left run_call calls w.

End ComplaintRuns.

(** ** Photo attachment *)

(** The row [add_photo_to_complaint] builds and stores for a payload that
    passes both checks. *)
Definition stored_photo (hash : string -> Z) (complaint_id : Z)
    (file_content : list byte) (filename mime_type caption : string)
    (display_order : Z) (w : World) : ComplaintPhoto :=
  mkComplaintPhoto (Some (next_id (complaint_photos w))) complaint_id filename
    (photo_file_path hash complaint_id file_content filename)
    (Py.len file_content) mime_type caption display_order
    (clock w (ticks w)).

(** ** Seeding *)

(** The row seeding stores for one catalog entry. *)
Definition seeded_layer (k : Z) (layer_data : string * LayerType * string * Z * Json)
    (created updated : datetime) : StaticLayer :=
  let '(name, layer_type, description, display_order, style_properties) :=
    layer_data in
  mkStaticLayer (Some k) name layer_type description "BIG"
    empty_feature_collection style_properties true display_order
    created updated.

(** The rows seeding stores in a world without static layers: entry [i] of
    the catalog gets key [i + 1] and the next two readings of the clock. *)
Definition seeded_rows (w : World) : list StaticLayer :=
  imap (fun i layer_data =>
          seeded_layer (Z.of_nat (S i)) layer_data
            (clock w (2 * i + ticks w)%nat) (clock w (S (2 * i) + ticks w)%nat))
       default_layers.

(** ** KMZ ingestion *)



(** ** Polygon area *)

(** The shoelace sum as the specification writes it: the points paired
    with their cyclic successors (the successor of the last point is the
    first), each pair adding [x_i * y_j] and taking off [x_j * y_i]. *)
Definition cyclic_pairs (points : list (float * float))
    : list ((float * float) * (float * float)) :=
  zip points (rotate 1 points).

Definition shoelace_term (acc : float) (pq : (float * float) * (float * float))
    : float :=
  (acc + fst (fst pq) * snd (snd pq) - fst (snd pq) * snd (fst pq))%float.

Definition shoelace_sum (points : list (float * float)) : float :=
  fold_left shoelace_term (cyclic_pairs points) 0%float.

(** ** Ingestion *)

(** The [match file_type] of [save_user_layer]: the parser the declared type
    selects, run on the upload. *)
Definition process_file (ZipFile : list byte -> Outcome ZipArchive)
    (file_type : FileType) (file_content : list byte) (filename : string)
    : Outcome Json :=
  match file_type with
  | KML => process_kml_file file_content filename
  | KMZ => process_kmz_file ZipFile file_content filename
  | SHP => process_shp_file file_content filename
  end.

(** The row [save_user_layer] builds and stores once the upload has been
    turned into a geometry. *)
Definition saved_layer (hash : string -> Z) (file_content : list byte)
    (filename : string) (file_type : FileType) (name description : string)
    (is_public : bool) (upload_ip : option string) (geom_data : Json)
    (w : World) : UserLayer :=
  mkUserLayer (Some (next_id (user_layers w))) name description file_type
    filename (user_layer_file_path hash file_content filename)
    (Py.len file_content) geom_data (_get_default_style file_type)
    is_public true upload_ip (clock w (ticks w)).

(** The MIME type [submit_complaint] hands on for an upload. *)
Definition upload_mime (file_info : FileInfo) : string :=
  if String.eqb (fi_type file_info) "" then "image/jpeg" else fi_type file_info.

(** An upload [add_photo_to_complaint] stores: it has a content, of an
    allowed type and at most the maximal size. *)
Definition attachable (file_info : FileInfo) : bool :=
  match fi_content file_info with
  | Some content =>
      bool_decide (upload_mime file_info ∈ ALLOWED_PHOTO_TYPES)
      && (Py.len content <=? MAX_PHOTO_SIZE)%Z
  | None => false
  end.

(** A photo row that stems from entry [i] of the uploads of complaint [k]. *)
Definition photo_of_upload (k : Z) (i : nat) (file_info : FileInfo)
    (p : ComplaintPhoto) : Prop :=
  attachable file_info = true
  /\ p_complaint_id p = k
  /\ p_display_order p = Z.of_nat i
  /\ p_filename p = fi_name file_info
  /\ p_mime_type p = upload_mime file_info
  /\ p_caption p = ""
  /\ Some (p_file_size p) = Py.len <$> fi_content file_info.

(** The uploads a submission carries. *)
Definition uploads_of (photo_upload_value : option (list FileInfo)) : list FileInfo :=
  default [] photo_upload_value.

(** Every stored complaint carries the key it is stored under. *)
Definition keys_are_ids (w : World) : Prop :=
  forall k c, complaints w !! k = Some c -> c_id c = Some k.

(** What a visitor can do on the page that reaches the complaint store. *)
Inductive PageAction : Type :=
| ActSubmit (title_value desc_value location_desc_value
             name_value email_value phone_value : string)
            (photo_upload_value : option (list FileInfo))
| ActRedirectFacebook (complaint_id : Z)
| ActRedirectLapor (complaint_id : Z).

Definition run_action (hash : string -> Z) (Decimal_of_str : float -> Decimal)
    (w : World) (action : PageAction) : World :=
  match action with
  | ActSubmit t d l n e p photos =>
      snd (submit_complaint hash Decimal_of_str t d l n e p photos w)
  | ActRedirectFacebook k => snd (redirect_to_facebook k w)
  | ActRedirectLapor k => snd (redirect_to_lapor k w)
  end.

Definition run_actions (hash : string -> Z) (Decimal_of_str : float -> Decimal)
    (actions : list PageAction) (w : World) : World :=
  fold_left (run_action hash Decimal_of_str) actions w.

(** * Sample inputs, as the repository's tests use them *)

(** Stand-ins for the interpreter's clock, [hash] and [isoformat]. *)
Definition sample_clock : nat -> datetime := fun k => Z.of_nat k.
Definition sample_hash : string -> Z := fun s => Z.of_nat (String.length s).
Definition sample_isoformat : datetime -> string := fun t => pretty t.

Definition sample_complaint : ComplaintCreate :=
  mkComplaintCreate "Test complaint" "Test description"
    (-855 # 100)%Q (11615 # 100)%Q "" None None None.
Definition sample_calls : list ComplaintCall :=
  [ CallCreate sample_complaint None;
    CallMarkRedirected 1 "Facebook";
    CallMarkRedirected 1 "LAPOR" ].

Definition ten_bytes : list byte := replicate 10 "x"%byte.

(** [Decimal(str(x))] on the four bounds of West Lombok. *)
Definition west_lombok_decimal (x : float) : Decimal :=
  if (x =? -8.8)%float then (-88 # 10)%Q
  else if (x =? 115.9)%float then (1159 # 10)%Q
  else if (x =? -8.3)%float then (-83 # 10)%Q
  else if (x =? 116.4)%float then (1164 # 10)%Q
  else 0%Q.

Definition inside_complaint : ComplaintCreate :=
  mkComplaintCreate "Inside complaint" "Inside area"
    (-855 # 100)%Q (11615 # 100)%Q "" None None None.
Definition outside_complaint : ComplaintCreate :=
  mkComplaintCreate "Outside complaint" "Outside area"
    (-700 # 100)%Q (11700 # 100)%Q "" None None None.

(** A stand-in for the zip decoder: an empty upload is no archive, an
    upload that starts with "0" holds no KML entry, any other holds two. *)
Definition sample_kmz_without_kml : ZipArchive :=
  [("readme.txt", ["r"%byte])].
Definition sample_kmz_with_two_kml : ZipArchive :=
  [("readme.txt", ["r"%byte]); ("doc.kml", ["d"%byte]); ("extra.kml", ["e"%byte])].
Definition sample_ZipFile (file_content : list byte) : Outcome ZipArchive :=
  match file_content with
  | [] => Raise (BadZipFile "File is not a zip file")
  | b :: _ => if Byte.eqb b "0"%byte then Return sample_kmz_without_kml
              else Return sample_kmz_with_two_kml
  end.

(** A store with three static layers (one switched off) and four user
    layers (one private, one switched off). *)
Definition sample_static (k : Z) (name : string) (active : bool) (order : Z)
    : StaticLayer :=
  mkStaticLayer (Some k) name IRRIGATION "" "BIG" empty_feature_collection
    (JDict []) active order 0 0.
Definition sample_user (k : Z) (name : string) (public active : bool)
    (created : datetime) : UserLayer :=
  mkUserLayer (Some k) name "" KML "a.kml" "uploads/user_layers/0-a.kml" 1
    empty_feature_collection (_get_default_style KML) public active None created.
Definition sample_layer_world : World :=
  with_user_layers
    (<[ 1 := sample_user 1 "old" true true 10 ]>
     (<[ 2 := sample_user 2 "new" true true 20 ]>
      (<[ 3 := sample_user 3 "private" false true 30 ]>
       (<[ 4 := sample_user 4 "off" true false 40 ]> ∅))))
    (with_static_layers
       (<[ 1 := sample_static 1 "second" true 2 ]>
        (<[ 2 := sample_static 2 "first" true 1 ]>
         (<[ 3 := sample_static 3 "hidden" false 0 ]> ∅)))
       (empty_world sample_clock)).

(** * Proofs *)

(** ** The built-ins on sample strings *)

Example lower_mixed_case :
  Py.lower "FaceBook" = "facebook" /\ Py.lower "LAPOR" = "lapor"
  /\ Py.lower "Lapor.go.id" = "lapor.go.id".
Proof. repeat split. Qed.

Example endswith_kml :
  Py.endswith "doc.kml" ".kml" = true /\ Py.endswith "DOC.KML" ".kml" = false
  /\ Py.endswith "kml" ".kml" = false /\ Py.endswith "doc.kml.txt" ".kml" = false.
Proof. repeat split. Qed.

Example split_on_dots :
  Py.split "." "a.b.jpg" = ["a"; "b"; "jpg"] /\ Py.split "." "noext" = ["noext"]
  /\ Py.split "." "trailing." = ["trailing"; ""].
Proof. repeat split. Qed.

Example photo_path_of_sample :
  photo_file_path sample_hash 1 ten_bytes "photo1.jpg"
  = "uploads/complaint_photos/complaint_1_12.jpg"
  /\ photo_file_path sample_hash 7 ten_bytes "noext"
     = "uploads/complaint_photos/complaint_7_7.jpg".
Proof. split; vm_compute; reflexivity. Qed.

Example user_layer_path_of_sample :
  user_layer_file_path sample_hash ten_bytes "test.kml"
  = "uploads/user_layers/10-test.kml".
Proof. vm_compute. reflexivity. Qed.

(** The regency's box holds its centre and its corners, and nothing to the
    north of it. *)
Example validate_coordinates_edges :
  validate_coordinates (-8.55) 116.15 = true
  /\ validate_coordinates (bound "south") (bound "west") = true
  /\ validate_coordinates (bound "north") (bound "east") = true
  /\ validate_coordinates (-7.0) 116.0 = false.
Proof. repeat split. Qed.

(** ** Unfolding equations of the complaint service *)

Lemma with_complaints_same (w : World) : with_complaints (complaints w) w = w.
Proof. destruct w; reflexivity. Qed.

Lemma create_complaint_eq (complaint_data : ComplaintCreate)
    (submit_ip : option string) (w : World) :
  exists c,
    c_status c = SUBMITTED /\ c_facebook_redirected c = false
    /\ c_lapor_redirected c = false
    /\ c_id c = Some (next_id (complaints w))
    /\ create_complaint complaint_data submit_ip w =
       (Return (Some c),
        with_complaints (<[ next_id (complaints w) := c ]> (complaints w))
          (with_ticks (S (ticks w)) w)).
Proof.
  unfold create_complaint, try_except, create_complaint_body, bind, utcnow,
    session_add_complaint, ret. cbn.
  eexists. split_and!; cycle 4.
  { reflexivity. }
  all: reflexivity.
Qed.

Lemma mark_redirected_eq (complaint_id : Z) (platform : string) (w : World) :
  mark_redirected complaint_id platform w =
  match complaints w !! complaint_id with
  | None => (Return false, w)
  | Some c =>
      (Return true,
       with_complaints
         (<[ complaint_id := apply_redirect platform c ]> (complaints w)) w)
  end.
Proof.
  unfold mark_redirected, try_except, mark_redirected_body, bind,
    session_get_complaint.
  destruct (complaints w !! complaint_id); reflexivity.
Qed.

Lemma apply_redirect_flags_facebook (platform : string) (c : Complaint) :
  Py.lower platform = "facebook" ->
  c_facebook_redirected (apply_redirect platform c) = true
  /\ c_lapor_redirected (apply_redirect platform c) = c_lapor_redirected c.
Proof.
  intros Hp. unfold apply_redirect. rewrite Hp. cbn.
  destruct (c_lapor_redirected c) eqn:E; cbn; rewrite ?E; auto.
Qed.

Lemma apply_redirect_flags_lapor (platform : string) (c : Complaint) :
  Py.lower platform = "lapor" ->
  c_facebook_redirected (apply_redirect platform c) = c_facebook_redirected c
  /\ c_lapor_redirected (apply_redirect platform c) = true.
Proof.
  intros Hp. unfold apply_redirect. rewrite Hp. cbn.
  destruct (c_facebook_redirected c) eqn:E; cbn; rewrite ?E; auto.
Qed.

Lemma apply_redirect_known (platform : string) (c : Complaint) :
  known_platform platform -> status_matches_flags (apply_redirect platform c).
Proof.
  intros [Hp | Hp]; unfold status_matches_flags, apply_redirect; rewrite Hp; cbn.
  - destruct (c_lapor_redirected c) eqn:E; cbn; rewrite ?E; reflexivity.
  - destruct (c_facebook_redirected c) eqn:E; cbn; rewrite ?E; reflexivity.
Qed.

(** Marking a platform whose flag is already set gives back the very row. *)
Lemma apply_redirect_again (platform : string) (c : Complaint) :
  status_matches_flags c ->
  (Py.lower platform = "facebook" /\ c_facebook_redirected c = true)
  \/ (Py.lower platform = "lapor" /\ c_lapor_redirected c = true) ->
  apply_redirect platform c = c.
Proof.
  unfold status_matches_flags. destruct c as [i t d la lo ld sn se sp st ip fb lp cr].
  cbn. intros Hst [[Hp Hf] | [Hp Hf]]; unfold apply_redirect; rewrite Hp; cbn;
    subst.
  - destruct lp; reflexivity.
  - destruct fb; reflexivity.
Qed.

Lemma add_photo_keeps_complaints (hash : string -> Z) (complaint_id : Z)
    (file_content : list byte) (filename mime_type caption : string)
    (display_order : Z) (w : World) :
  complaints (snd (add_photo_to_complaint hash complaint_id file_content
                     filename mime_type caption display_order w))
  = complaints w.
Proof.
  unfold add_photo_to_complaint, try_except, add_photo_body, bind.
  destruct (bool_decide (mime_type ∈ ALLOWED_PHOTO_TYPES)); [|reflexivity].
  cbn. destruct (MAX_PHOTO_SIZE <? Py.len file_content)%Z; reflexivity.
Qed.

Lemma run_call_keeps_invariant (hash : string -> Z) (w : World)
    (call : ComplaintCall) :
  store_matches_flags w -> redirects_known call ->
  store_matches_flags (run_call hash w call).
Proof.
  intros Hinv Hok k c.
  destruct call as [data ip | cid fc fn mt cap ord | cid p]; cbn [run_call].
  - destruct (create_complaint_eq data ip w) as (c0 & Hs & Hf & Hl & _ & ->). cbn.
    intros Hlook. apply lookup_insert_Some in Hlook as [[_ <-] | [_ Hlook]].
    + unfold status_matches_flags. rewrite Hs, Hf, Hl. reflexivity.
    + eauto.
  - rewrite add_photo_keeps_complaints. apply Hinv.
  - rewrite mark_redirected_eq.
    destruct (complaints w !! cid) as [c0|] eqn:Hc0; cbn; [|apply Hinv].
    intros Hlook. apply lookup_insert_Some in Hlook as [[_ <-] | [_ Hlook]].
    + apply apply_redirect_known, Hok.
    + eauto.
Qed.

Lemma run_calls_keep_invariant (hash : string -> Z) (calls : list ComplaintCall) :
  forall w, store_matches_flags w -> Forall redirects_known calls ->
            store_matches_flags (run_calls hash calls w).
Proof.
  induction calls as [|call calls IH]; intros w Hinv Hok; [exact Hinv|].
  apply Forall_cons in Hok as [Hcall Hrest]. cbn.
  apply IH; [|exact Hrest]. apply run_call_keeps_invariant; assumption.
Qed.

Lemma empty_world_matches_flags (clk : nat -> datetime) :
  store_matches_flags (empty_world clk).
Proof. intros k c. cbn. rewrite lookup_empty. discriminate. Qed.

(** ** The redirect state machine *)

(** C1: in every store reached from the empty one by complaint-service
    calls whose redirects name "facebook" or "lapor" (any letter case), each
    complaint's status is the function of its two flags (SUBMITTED for none,
    REDIRECTED for one, COMPLETED for both); a further such redirect sets
    the named flag, keeps the other, and leaves the status that function of
    the flags; and re-marking a platform whose flag is set changes nothing. *)
Theorem status_is_function_of_redirect_flags
    (hash : string -> Z) (clk : nat -> datetime) (calls : list ComplaintCall) :
  Forall redirects_known calls ->
  let w := run_calls hash calls (empty_world clk) in
  forall k c, complaints w !! k = Some c ->
    c_status c = status_of_flags (c_facebook_redirected c) (c_lapor_redirected c)
    /\ (forall platform, known_platform platform ->
          let c' := apply_redirect platform c in
          mark_redirected k platform w
          = (Return true, with_complaints (<[ k := c' ]> (complaints w)) w)
          /\ c_facebook_redirected c'
             = (c_facebook_redirected c || String.eqb (Py.lower platform) "facebook")
          /\ c_lapor_redirected c'
             = (c_lapor_redirected c || String.eqb (Py.lower platform) "lapor")
          /\ c_status c'
             = status_of_flags (c_facebook_redirected c') (c_lapor_redirected c'))
    /\ (forall platform,
          (Py.lower platform = "facebook" /\ c_facebook_redirected c = true)
          \/ (Py.lower platform = "lapor" /\ c_lapor_redirected c = true) ->
          mark_redirected k platform w = (Return true, w)).
Proof.
  intros Hok w k c Hlook.
  assert (Hinv : store_matches_flags w).
  { apply run_calls_keep_invariant; [apply empty_world_matches_flags | exact Hok]. }
  pose proof (Hinv k c Hlook) as Hc. split; [exact Hc|]. split.
  - intros platform Hp c'. split.
    { rewrite mark_redirected_eq, Hlook. reflexivity. }
    pose proof (apply_redirect_known platform c Hp) as Hst.
    destruct Hp as [Hp | Hp].
    + destruct (apply_redirect_flags_facebook platform c Hp) as [Hf Hl].
      subst c'. rewrite Hf, Hl, Hp. cbn. rewrite orb_true_r, orb_false_r.
      split; [reflexivity|]. split; [reflexivity|].
      unfold status_matches_flags in Hst. rewrite Hf, Hl in Hst. exact Hst.
    + destruct (apply_redirect_flags_lapor platform c Hp) as [Hf Hl].
      subst c'. rewrite Hf, Hl, Hp. cbn. rewrite orb_true_r, orb_false_r.
      split; [reflexivity|]. split; [reflexivity|].
      unfold status_matches_flags in Hst. rewrite Hf, Hl in Hst. exact Hst.
  - intros platform Hset. rewrite mark_redirected_eq, Hlook.
    rewrite (apply_redirect_again platform c Hc Hset).
    rewrite (insert_id _ _ _ Hlook), with_complaints_same. reflexivity.
Qed.

Lemma status_is_function_of_redirect_flags_witness :
  Forall redirects_known sample_calls
  /\ (forall k c,
        complaints (run_calls sample_hash sample_calls (empty_world sample_clock)) !! k
        = Some c ->
        c_status c = status_of_flags (c_facebook_redirected c) (c_lapor_redirected c)).
Proof.
  assert (Hok : Forall redirects_known sample_calls).
  { unfold sample_calls.
    apply Forall_cons; split; [exact I|].
    apply Forall_cons; split; [left; reflexivity|].
    apply Forall_cons; split; [right; reflexivity|].
    constructor. }
  split; [exact Hok|]. intros k c Hlook.
  exact (proj1 (status_is_function_of_redirect_flags
                  sample_hash sample_clock sample_calls Hok k c Hlook)).
Defined.

(** The sequence of the specification: SUBMITTED, then REDIRECTED after
    "facebook", then COMPLETED after "lapor"; "facebook" once more changes
    nothing. *)
Example redirect_sequence :
  let w0 := snd (create_complaint sample_complaint None (empty_world sample_clock)) in
  let w1 := snd (mark_redirected 1 "facebook" w0) in
  let w2 := snd (mark_redirected 1 "lapor" w1) in
  let w3 := snd (mark_redirected 1 "facebook" w2) in
  c_status <$> complaints w0 !! 1 = Some SUBMITTED
  /\ c_status <$> complaints w1 !! 1 = Some REDIRECTED
  /\ c_status <$> complaints w2 !! 1 = Some COMPLETED
  /\ c_status <$> complaints w3 !! 1 = Some COMPLETED.
Proof. vm_compute. repeat split. Qed.

(** C2 (the code departs from it): a redirect to a platform that is neither
    "facebook" nor "lapor" sets no flag, and yet rewrites the status:
    COMPLETED when both flags are set, REDIRECTED otherwise. *)
Theorem unknown_platform_rewrites_status
    (w : World) (k : Z) (c : Complaint) (platform : string) :
  complaints w !! k = Some c ->
  ~ known_platform platform ->
  exists c',
    mark_redirected k platform w
    = (Return true, with_complaints (<[ k := c' ]> (complaints w)) w)
    /\ c_facebook_redirected c' = c_facebook_redirected c
    /\ c_lapor_redirected c' = c_lapor_redirected c
    /\ c_status c'
       = if c_facebook_redirected c && c_lapor_redirected c
         then COMPLETED else REDIRECTED.
Proof.
  intros Hlook Hunknown. exists (apply_redirect platform c).
  rewrite mark_redirected_eq, Hlook. split; [reflexivity|].
  unfold known_platform in Hunknown. unfold apply_redirect.
  destruct (String.eqb_spec (Py.lower platform) "facebook") as [E1|_]; [tauto|].
  destruct (String.eqb_spec (Py.lower platform) "lapor") as [E2|_]; [tauto|].
  destruct (c_facebook_redirected c) eqn:Ef, (c_lapor_redirected c) eqn:El;
    cbn; rewrite ?Ef, ?El; auto.
Qed.

Lemma unknown_platform_rewrites_status_witness :
  let w := snd (create_complaint sample_complaint None (empty_world sample_clock)) in
  exists c c',
    complaints w !! 1 = Some c
    /\ c_status c = SUBMITTED
    /\ mark_redirected 1 "twitter" w
       = (Return true, with_complaints (<[ 1 := c' ]> (complaints w)) w)
    /\ c_facebook_redirected c' = false
    /\ c_lapor_redirected c' = false
    /\ c_status c' = REDIRECTED.
Proof.
  intros w.
  assert (Hlook : exists c, complaints w !! 1 = Some c /\ c_status c = SUBMITTED
                          /\ c_facebook_redirected c = false
                          /\ c_lapor_redirected c = false).
  { eexists. split; [vm_compute; reflexivity|]. repeat split. }
  destruct Hlook as (c & Hlook & Hs & Hf & Hl).
  assert (Hunknown : ~ known_platform "twitter").
  { intros [H | H]; vm_compute in H; discriminate. }
  destruct (unknown_platform_rewrites_status w 1 c "twitter" Hlook Hunknown)
    as (c' & Hrun & Hf' & Hl' & Hs').
  exists c, c'. rewrite Hf' , Hl', Hs', Hf, Hl. repeat split; assumption.
Defined.

(** ** Photo attachment *)

Lemma le_foldr_max (l : list Z) (x : Z) : x ∈ l -> x <= foldr Z.max 0 l.
Proof.
  induction l as [|y l IH]; intros Hin.
  - inversion Hin.
  - apply elem_of_cons in Hin as [-> | Hin]; cbn; [lia|].
    specialize (IH Hin). lia.
Qed.

Lemma next_id_fresh {A} (t : gmap Z A) : t !! next_id t = None.
Proof.
  destruct (t !! next_id t) as [a|] eqn:E; [|reflexivity].
  apply elem_of_map_to_list in E.
  assert (Hin : next_id t ∈ (map_to_list t).*1).
  { apply list_elem_of_fmap. exists (next_id t, a). split; [reflexivity | exact E]. }
  apply le_foldr_max in Hin. unfold next_id in Hin at 1. lia.
Qed.

Section PhotoAttachment.

Variable hash : string -> Z.
Variables (complaint_id : Z) (file_content : list byte).
Variables (filename mime_type caption : string) (display_order : Z).
Variable w : World.

Local Abbreviation body :=
  (add_photo_body hash complaint_id file_content filename mime_type caption
     display_order).
Local Abbreviation run :=
  (add_photo_to_complaint hash complaint_id file_content filename mime_type
     caption display_order).

Lemma add_photo_rejects_mime :
  mime_type ∉ ALLOWED_PHOTO_TYPES ->
  body w = (Raise (ValueError ("Unsupported file type: " +:+ mime_type)), w)
  /\ run w
     = (Return None,
        with_log (log w ++ ["Error adding photo to complaint: "
                            +:+ "Unsupported file type: " +:+ mime_type]) w).
Proof.
  intros Hmime.
  unfold add_photo_to_complaint, try_except, add_photo_body, bind.
  rewrite (bool_decide_eq_false_2 _ Hmime). split; reflexivity.
Qed.

Lemma add_photo_rejects_size :
  mime_type ∈ ALLOWED_PHOTO_TYPES ->
  MAX_PHOTO_SIZE < Py.len file_content ->
  body w = (Raise (ValueError "File size exceeds maximum limit (5MB)"), w)
  /\ run w
     = (Return None,
        with_log (log w ++ ["Error adding photo to complaint: "
                            +:+ "File size exceeds maximum limit (5MB)"]) w).
Proof.
  intros Hmime Hsize.
  unfold add_photo_to_complaint, try_except, add_photo_body, bind.
  rewrite (bool_decide_eq_true_2 _ Hmime). cbn [ret].
  apply Z.ltb_lt in Hsize. rewrite Hsize. split; reflexivity.
Qed.

Lemma add_photo_accepts :
  mime_type ∈ ALLOWED_PHOTO_TYPES ->
  Py.len file_content <= MAX_PHOTO_SIZE ->
  let photo := stored_photo hash complaint_id file_content filename mime_type
                 caption display_order w in
  run w
  = (Return (Some photo),
     with_complaint_photos
       (<[ next_id (complaint_photos w) := photo ]> (complaint_photos w))
       (with_ticks (S (ticks w))
          (with_files (<[ p_file_path photo := file_content ]> (files w))
             (with_dirs ({[ UPLOAD_DIR ]} ∪ dirs w) w)))).
Proof.
  intros Hmime Hsize photo. subst photo.
  unfold add_photo_to_complaint, try_except, add_photo_body, bind.
  rewrite (bool_decide_eq_true_2 _ Hmime). cbn [ret].
  apply Z.ltb_ge in Hsize. rewrite Hsize. reflexivity.
Qed.

(** Whatever the checks say, a rejected payload leaves tables and files
    as they were. *)
Lemma add_photo_rejected_leaves_store :
  mime_type ∉ ALLOWED_PHOTO_TYPES \/ MAX_PHOTO_SIZE < Py.len file_content ->
  fst (run w) = Return None
  /\ complaint_photos (snd (run w)) = complaint_photos w
  /\ files (snd (run w)) = files w
  /\ complaints (snd (run w)) = complaints w.
Proof.
  intros Hbad.
  destruct (decide (mime_type ∈ ALLOWED_PHOTO_TYPES)) as [Hin | Hout].
  - destruct Hbad as [Hout | Hsize]; [contradiction|].
    destruct (add_photo_rejects_size Hin Hsize) as [_ ->]. repeat split.
  - destruct (add_photo_rejects_mime Hout) as [_ ->]. repeat split.
Qed.

End PhotoAttachment.






(** ** Queries: [where] and [order_by] *)

#[global] Instance key_le_total {A} (key : A -> Z) : Total (key_le key).
Proof. intros a b. unfold key_le. lia. Qed.
#[global] Instance key_le_trans {A} (key : A -> Z) : Transitive (key_le key).
Proof. intros a b c. unfold key_le. lia. Qed.
#[global] Instance key_ge_total {A} (key : A -> Z) : Total (key_ge key).
Proof. intros a b. unfold key_ge. lia. Qed.
#[global] Instance key_ge_trans {A} (key : A -> Z) : Transitive (key_ge key).
Proof. intros a b c. unfold key_ge. lia. Qed.

Lemma elem_of_select_all {A} (t : gmap Z A) (x : A) :
  x ∈ select_all t <-> exists k, t !! k = Some x.
Proof.
  unfold select_all. rewrite list_elem_of_fmap. split.
  - intros [[k y] [-> Hin]]. exists k. apply elem_of_map_to_list. exact Hin.
  - intros [k Hk]. exists (k, x). split; [reflexivity|].
    apply elem_of_map_to_list. exact Hk.
Qed.

Lemma elem_of_where {A} (P : A -> bool) (t : gmap Z A) (x : A) :
  x ∈ List.filter P (select_all t) <-> (exists k, t !! k = Some x) /\ P x = true.
Proof.
  rewrite list_elem_of_In, filter_In, <- list_elem_of_In, elem_of_select_all.
  reflexivity.
Qed.

Section OrderedQueries.

Context {A : Type} (key : A -> Z) (P : A -> bool) (t : gmap Z A).







End OrderedQueries.



(** The repository's test: of a complaint at (-8.55, 116.15) and one at
    (-7.0, 117.0), the regency's box holds the first only. *)
Example complaints_in_west_lombok :
  let w := run_calls sample_hash
             [CallCreate inside_complaint None; CallCreate outside_complaint None]
             (empty_world sample_clock) in
  List.map cr_title
    (get_complaints_in_area sample_isoformat west_lombok_decimal
       (-8.8)%float 115.9%float (-8.3)%float 116.4%float w)
  = ["Inside complaint"].
Proof. vm_compute. reflexivity. Qed.

(** A complaint on the edge of the box is inside it. *)
Example complaints_on_the_edge :
  let corner := mkComplaintCreate "Corner" "" (-88 # 10)%Q (1164 # 10)%Q ""
                  None None None in
  let w := run_calls sample_hash [CallCreate corner None]
             (empty_world sample_clock) in
  List.map cr_title
    (get_complaints_in_area sample_isoformat west_lombok_decimal
       (-8.8)%float 115.9%float (-8.3)%float 116.4%float w)
  = ["Corner"].
Proof. vm_compute. reflexivity. Qed.

(** ** Layer listing *)


(** Curated layers by display order first, then public user layers by
    recency; the switched-off and the private layers are left out. *)
Example active_layers_of_sample_world :
  lr_name <$> get_all_active_layers sample_isoformat sample_layer_world
  = ["first"; "second"; "new"; "old"].
Proof. vm_compute. reflexivity. Qed.

(** ** Seeding *)

Lemma seed_noop_when_seeded (w : World) :
  static_layers w <> ∅ -> seed_default_layers w = (Return tt, w).
Proof.
  intros Hne. unfold seed_default_layers, bind, get_world, select_all.
  destruct (map_to_list (static_layers w)) as [|[k l] rest] eqn:E.
  - apply map_to_list_empty_iff in E. contradiction.
  - reflexivity.
Qed.

Lemma seed_fills_empty_store (w : World) :
  static_layers w = ∅ ->
  static_layers (snd (seed_default_layers w))
  = list_to_map (zip [1; 2; 3; 4; 5] (seeded_rows w)).
Proof.
  destruct w as [sl ul cs ps fs ds lg clk tk]. cbn [static_layers].
  intros ->. vm_compute. reflexivity.
Qed.

(** C5: seeding changes nothing when a static layer exists; from a store
    without static layers one call stores the catalog's five layers (rice
    fields, irrigation, regency roads, regency boundaries, village
    boundaries, with display orders 1 to 5 and an empty feature collection as
    geometry) and a second call changes nothing more. *)
Theorem seed_default_layers_idempotent (w : World) :
  (static_layers w <> ∅ -> seed_default_layers w = (Return tt, w))
  /\ (static_layers w = ∅ ->
      let once := snd (seed_default_layers w) in
      let twice := snd (seed_default_layers once) in
      twice = once
      /\ exists rows,
           static_layers once = list_to_map (zip [1; 2; 3; 4; 5] rows)
           /\ sl_layer_type <$> rows
              = [RICE_FIELDS; IRRIGATION; REGENCY_ROADS; REGENCY_BOUNDARIES;
                 VILLAGE_BOUNDARIES]
           /\ sl_display_order <$> rows = [1; 2; 3; 4; 5]
           /\ Forall (fun l => sl_geom_data l = empty_feature_collection) rows
           /\ Forall (fun l => sl_is_active l = true) rows).
Proof.
  split; [apply seed_noop_when_seeded|].
  intros Hempty once twice.
  pose proof (seed_fills_empty_store w Hempty) as Hfill. fold once in Hfill.
  split.
  - subst twice. rewrite seed_noop_when_seeded; [reflexivity|].
    intros Hnone. rewrite Hfill in Hnone.
    apply (f_equal (fun t => t !! 1)) in Hnone.
    rewrite lookup_empty in Hnone. vm_compute in Hnone. discriminate.
  - exists (seeded_rows w). split; [exact Hfill|].
    split; [reflexivity|]. split; [reflexivity|].
    split; repeat constructor.
Qed.

Lemma seed_default_layers_idempotent_witness :
  let w := empty_world sample_clock in
  (static_layers w = ∅
   /\ snd (seed_default_layers (snd (seed_default_layers w)))
      = snd (seed_default_layers w))
  /\ (static_layers sample_layer_world <> ∅
      /\ seed_default_layers sample_layer_world = (Return tt, sample_layer_world)).
Proof.
  intros w.
  assert (Hseeded : static_layers sample_layer_world <> ∅).
  { intros Hnone. apply (f_equal (fun t => t !! 1)) in Hnone.
    vm_compute in Hnone. discriminate. }
  split.
  - split; [reflexivity|].
    exact (proj1 (proj2 (seed_default_layers_idempotent w) eq_refl)).
  - split; [exact Hseeded|].
    exact (proj1 (seed_default_layers_idempotent sample_layer_world) Hseeded).
Defined.

(** ** KMZ ingestion *)




Lemma zip_read_unique (before after : ZipArchive) (name : string) (bytes : list byte) :
  name ∉ namelist after ->
  zip_read (before ++ (name, bytes) :: after)%list name = Return bytes.
Proof.
  intros Hlater. unfold zip_read.
  rewrite rev_app_distr. cbn. rewrite <- app_assoc. cbn.
  assert (Hnone : forall l : ZipArchive, name ∉ namelist l ->
            forall tail, List.find (fun e => String.eqb (fst e) name) (l ++ tail)%list
                         = List.find (fun e => String.eqb (fst e) name) tail).
  { induction l as [|[n b] l IH]; intros Hl tail; [reflexivity|].
    cbn. destruct (String.eqb_spec n name) as [-> | Hne].
    - exfalso. apply Hl. left.
    - apply IH. intros Hin. apply Hl. right. exact Hin. }
  rewrite Hnone.
  - cbn. rewrite String.eqb_refl. reflexivity.
  - intros Hin. apply Hlater. unfold namelist in *.
    rewrite list_elem_of_fmap in Hin. destruct Hin as [e [-> Hin]].
    apply list_elem_of_fmap. exists e. split; [reflexivity|].
    apply list_elem_of_In. apply in_rev. apply list_elem_of_In. exact Hin.
Qed.



(** ** Storage paths of uploads *)

Lemma user_layer_file_path_by_length (hash : string -> Z)
    (first second : list byte) (filename : string) :
  List.length first = List.length second ->
  user_layer_file_path hash first filename
  = user_layer_file_path hash second filename.
Proof.
  intros Hlen. unfold user_layer_file_path, Py.len. rewrite Hlen. reflexivity.
Qed.

Lemma save_user_layer_kml_eq (hash : string -> Z)
    (ZipFile : list byte -> Outcome ZipArchive) (file_content : list byte)
    (filename name description : string) (is_public : bool)
    (upload_ip : option string) (w : World) :
  exists layer,
    ul_file_path layer = user_layer_file_path hash file_content filename
    /\ save_user_layer hash ZipFile file_content filename KML name description
         is_public upload_ip w
       = (Return (Some layer),
          with_user_layers (<[ next_id (user_layers w) := layer ]> (user_layers w))
            (with_ticks (S (ticks w))
               (with_files
                  (<[ user_layer_file_path hash file_content filename
                      := file_content ]> (files w))
                  (with_dirs ({[ USER_LAYER_DIR ]} ∪ dirs w) w)))).
Proof.
  unfold save_user_layer, try_except, save_user_layer_body, bind, lift. cbn.
  eexists. split; cycle 1.
  { reflexivity. }
  reflexivity.
Qed.

(** C9 (the code departs from it): the storage path of an upload is built
    from the file name and the hash of the file name followed by the
    content's length, so two uploads named "layer.kml" whose contents
    differ but are equally long get the same path, and the second upload
    overwrites the file of the first. *)
Theorem same_name_uploads_share_path
    (hash : string -> Z) (ZipFile : list byte -> Outcome ZipArchive) (w : World) :
  let first := ["A"%byte] in
  let second := ["B"%byte] in
  let r1 := save_user_layer hash ZipFile first "layer.kml" KML "First" ""
              true None w in
  let r2 := save_user_layer hash ZipFile second "layer.kml" KML "Second" ""
              true None (snd r1) in
  first <> second
  /\ user_layer_file_path hash first "layer.kml"
     = user_layer_file_path hash second "layer.kml"
  /\ exists l1 l2,
       fst r1 = Return (Some l1) /\ fst r2 = Return (Some l2)
       /\ ul_file_path l1 = ul_file_path l2
       /\ files (snd r1) !! ul_file_path l1 = Some first
       /\ files (snd r2) !! ul_file_path l1 = Some second.
Proof.
  intros first second r1 r2.
  assert (Hpath : user_layer_file_path hash first "layer.kml"
                  = user_layer_file_path hash second "layer.kml")
    by (apply user_layer_file_path_by_length; reflexivity).
  split; [discriminate|]. split; [exact Hpath|].
  destruct (save_user_layer_kml_eq hash ZipFile first "layer.kml" "First" ""
              true None w) as (l1 & Hp1 & Hr1).
  fold r1 in Hr1.
  destruct (save_user_layer_kml_eq hash ZipFile second "layer.kml" "Second" ""
              true None (snd r1)) as (l2 & Hp2 & Hr2).
  fold r2 in Hr2.
  exists l1, l2. rewrite Hr2, Hr1, Hp1, Hp2. cbn.
  split; [reflexivity|]. split; [reflexivity|]. split; [exact Hpath|].
  split; [apply lookup_insert_eq|].
  rewrite Hpath. apply lookup_insert_eq.
Qed.

(** ** Polygon area *)

Lemma fold_left_fmap {A B C} (f : A -> B -> A) (g : C -> B) (l : list C) (a : A) :
  fold_left f (g <$> l) a = fold_left (fun a x => f a (g x)) l a.
Proof. revert a. induction l as [|x l IH]; intros a; cbn; [reflexivity | apply IH]. Qed.

Lemma rotate_nat_add_one (i n : nat) :
  rotate_nat_add 1 i n = ((i + 1) mod n)%nat.
Proof.
  unfold rotate_nat_add.
  replace (Z.of_nat 1 + Z.of_nat i) with (Z.of_nat (i + 1)) by lia.
  rewrite <- Nat2Z.inj_mod. apply Nat2Z.id.
Qed.

(** The index loop visits exactly the cyclic pairs, in order. *)
Lemma loop_pairs (points : list (float * float)) (d : float * float) :
  (fun i => (nth i points d, nth ((i + 1) mod List.length points) points d))
    <$> seq 0 (List.length points)
  = cyclic_pairs points.
Proof.
  apply list_eq. intros i. unfold cyclic_pairs.
  rewrite list_lookup_fmap, lookup_zip_with.
  destruct (decide (i < List.length points)%nat) as [Hlt | Hge].
  - rewrite lookup_seq_lt by exact Hlt. cbn.
    rewrite lookup_rotate_r by exact Hlt. rewrite rotate_nat_add_one.
    rewrite !nth_lookup.
    destruct (lookup_lt_is_Some_2 points i Hlt) as [p ->]. cbn.
    assert (Hj : ((i + 1) mod List.length points < List.length points)%nat)
      by (apply Nat.mod_upper_bound; lia).
    destruct (lookup_lt_is_Some_2 points _ Hj) as [q ->]. reflexivity.
  - rewrite lookup_seq_ge by lia. cbn.
    rewrite (lookup_ge_None_2 points i) by lia. reflexivity.
Qed.

Lemma calculate_area_loop (points : list (float * float)) :
  fold_left (shoelace_step points (List.length points))
    (seq 0 (List.length points)) 0%float
  = shoelace_sum points.
Proof.
  unfold shoelace_sum. rewrite <- (loop_pairs points (0%float, 0%float)).
  rewrite fold_left_fmap. reflexivity.
Qed.

(** Rounding a quotient keeps the sign it is given. *)
Lemma round_keeps_plus (mx ex : Z) (lx : SpecFloat.location) :
  SFltb (binary_round_aux prec emax false mx ex lx) (S754_zero false) = false
  /\ (SFleb (S754_zero false) (binary_round_aux prec emax false mx ex lx) = true
      \/ binary_round_aux prec emax false mx ex lx = S754_nan).
Proof.
  unfold binary_round_aux.
  destruct (shr_fexp prec emax mx ex lx) as [mrs' e'].
  destruct (shr_fexp prec emax _ e' loc_Exact) as [mrs'' e''].
  destruct (shr_m mrs'') as [|m|m].
  - split; [reflexivity | left; reflexivity].
  - destruct (e'' <=? emax - prec)%Z; split; try reflexivity; left; reflexivity.
  - split; [reflexivity | right; reflexivity].
Qed.

(** [abs(x) / 2.0] is never below zero: it is at least zero, or not a
    number. *)
Lemma half_abs_not_negative (x : float) :
  (abs x / 2 <? 0)%float = false
  /\ ((0 <=? abs x / 2)%float = true \/ is_nan (abs x / 2)%float = true).
Proof.
  rewrite FloatAxioms.ltb_spec, FloatAxioms.leb_spec.
  assert (Hnan : forall y, Prim2SF y = S754_nan -> is_nan y = true).
  { intros y Hy. unfold is_nan. rewrite FloatAxioms.eqb_spec, Hy. reflexivity. }
  assert (H : SFltb (Prim2SF (abs x / 2)) (Prim2SF 0) = false
              /\ (SFleb (Prim2SF 0) (Prim2SF (abs x / 2)) = true
                  \/ Prim2SF (abs x / 2) = S754_nan)).
  { rewrite FloatAxioms.div_spec, FloatAxioms.abs_spec.
    change (Prim2SF 0) with (S754_zero false).
    change (Prim2SF 2) with (S754_finite false 4503599627370496 (-51)).
    destruct (Prim2SF x) as [s | s | | s m e]; cbn [SFabs].
    - split; [reflexivity | left; reflexivity].
    - split; [reflexivity | left; reflexivity].
    - split; [reflexivity | right; reflexivity].
    - unfold SF64div, SFdiv.
      destruct (SFdiv_core_binary prec emax (Z.pos m) e
                  (Z.pos 4503599627370496) (-51)) as [[mz ez] lz].
      apply round_keeps_plus. }
  destruct H as [H1 [H2 | H2]]; split; auto.
Qed.

(** C8, as amended: [calculate_area] returns 0 on fewer than three points
    and otherwise half the absolute value of the cyclic shoelace sum, in
    binary64 arithmetic summed in the order of the points; the result is
    never below zero (it is at least zero, or NaN); it is 0.5 on the unit
    right triangle and 4.0 on the square of side 2. *)
Theorem calculate_area_shoelace (points : list (float * float)) :
  ((List.length points < 3)%nat -> calculate_area points = 0%float)
  /\ ((3 <= List.length points)%nat ->
      calculate_area points = (abs (shoelace_sum points) / 2)%float)
  /\ ((calculate_area points <? 0)%float = false
      /\ ((0 <=? calculate_area points)%float = true
          \/ is_nan (calculate_area points) = true))
  /\ calculate_area [(0, 0); (1, 0); (0, 1)]%float = 0.5%float
  /\ calculate_area [(0, 0); (2, 0); (2, 2); (0, 2)]%float = 4%float.
Proof.
  split; [|split; [|split]].
  - intros Hshort. unfold calculate_area.
    apply Nat.ltb_lt in Hshort. rewrite Hshort. reflexivity.
  - intros Hlong. unfold calculate_area.
    apply Nat.ltb_ge in Hlong. rewrite Hlong.
    rewrite calculate_area_loop. reflexivity.
  - unfold calculate_area. destruct (List.length points <? 3)%nat.
    + split; [reflexivity | left; reflexivity].
    + apply half_abs_not_negative.
  - split; vm_compute; reflexivity.
Qed.

Lemma calculate_area_shoelace_witness :
  ((List.length [(0, 0); (1, 1)]%float < 3)%nat
   /\ calculate_area [(0, 0); (1, 1)]%float = 0%float)
  /\ ((3 <= List.length [(0, 0); (2, 0); (2, 2); (0, 2)]%float)%nat
      /\ calculate_area [(0, 0); (2, 0); (2, 2); (0, 2)]%float
         = (abs (shoelace_sum [(0, 0); (2, 0); (2, 2); (0, 2)]%float) / 2)%float).
Proof.
  assert (Hshort : (List.length [(0, 0); (1, 1)]%float < 3)%nat) by (cbn; lia).
  assert (Hlong : (3 <= List.length [(0, 0); (2, 0); (2, 2); (0, 2)]%float)%nat)
    by (cbn; lia).
  split.
  - split; [exact Hshort|].
    exact (proj1 (calculate_area_shoelace [(0, 0); (1, 1)]%float) Hshort).
  - split; [exact Hlong|].
    exact (proj1 (proj2 (calculate_area_shoelace
                           [(0, 0); (2, 0); (2, 2); (0, 2)]%float)) Hlong).
Defined.

(** C8, as stated, fails where a product overflows: on a polygon with two
    corners at (1e200, 1e200) the sum is infinity minus infinity, and the
    area is NaN, which is not at least zero. *)
Lemma calculate_area_overflow_is_nan :
  is_nan (calculate_area [(1e200, 1e200); (1e200, 1e200); (0, 0)]%float) = true
  /\ (0 <=? calculate_area [(1e200, 1e200); (1e200, 1e200); (0, 0)]%float)%float
     = false.
Proof. split; vm_compute; reflexivity. Qed.

(** * Further properties of the services *)

(** ** Reading complaints back *)

#[global] Instance key2_le_total {A} (key1 key2 : A -> Z) : Total (key2_le key1 key2).
Proof. intros a b. unfold key2_le. lia. Qed.
#[global] Instance key2_le_trans {A} (key1 key2 : A -> Z) :
  Transitive (key2_le key1 key2).
Proof. intros a b c. unfold key2_le. lia. Qed.

Lemma elem_of_photos_by_order_and_time (k : Z) (w : World) (p : ComplaintPhoto) :
  p ∈ photos_by_order_and_time k w
  <-> (exists j, complaint_photos w !! j = Some p) /\ p_complaint_id p = k.
Proof.
  unfold photos_by_order_and_time, order_by2.
  rewrite merge_sort_Permutation, elem_of_where, Z.eqb_eq. reflexivity.
Qed.

(** X1: [get_complaint] answers nothing exactly for an id that is not
    stored; for a stored one the response carries the row's fields and the
    responses of exactly the photos whose [complaint_id] is that id, by
    ascending display order, ties by creation time. *)
Theorem get_complaint_lists_own_photos
    (isoformat : datetime -> string) (k : Z) (w : World) :
  (get_complaint isoformat k w = None <-> complaints w !! k = None)
  /\ (forall c, complaints w !! k = Some c ->
        exists r,
          get_complaint isoformat k w = Some r
          /\ cr_id r = default 0 (c_id c) /\ cr_title r = c_title c
          /\ cr_status r = c_status c
          /\ cr_latitude r = c_latitude c /\ cr_longitude r = c_longitude c
          /\ cr_photos r = photo_response <$> photos_by_order_and_time k w)
  /\ (forall p, p ∈ photos_by_order_and_time k w
                <-> (exists j, complaint_photos w !! j = Some p)
                    /\ p_complaint_id p = k)
  /\ StronglySorted
       (fun a b => p_display_order a < p_display_order b
                   \/ (p_display_order a = p_display_order b
                       /\ p_created_at a <= p_created_at b))
       (photos_by_order_and_time k w).
Proof.
  split; [|split; [|split]].
  - unfold get_complaint. destruct (complaints w !! k); split; congruence.
  - intros c Hc. unfold get_complaint. rewrite Hc. eexists.
    split; [reflexivity|]. repeat split.
  - apply elem_of_photos_by_order_and_time.
  - apply (StronglySorted_merge_sort (key2_le p_display_order p_created_at)).
Qed.

Lemma length_select_all {A} (t : gmap Z A) : List.length (select_all t) = size t.
Proof. unfold select_all. rewrite length_fmap. apply length_map_to_list. Qed.

(** X2: [get_recent_complaints limit] answers with the responses of
    [min limit n] of the [n] stored complaints, newest first, and no
    complaint left out is newer than one that is listed. *)
Theorem recent_complaints_are_the_newest
    (isoformat : datetime -> string) (limit : nat) (w : World) :
  let rows := recent_complaints limit w in
  get_recent_complaints isoformat limit w
  = List.map (complaint_response isoformat w) rows
  /\ List.length (get_recent_complaints isoformat limit w)
     = Nat.min limit (size (complaints w))
  /\ StronglySorted (fun a b => c_created_at b <= c_created_at a) rows
  /\ exists rest,
       (rows ++ rest)%list ≡ₚ select_all (complaints w)
       /\ forall a b, a ∈ rows -> b ∈ rest -> c_created_at b <= c_created_at a.
Proof.
  intros rows. subst rows. unfold get_recent_complaints, recent_complaints.
  set (sorted := order_by_desc c_created_at (select_all (complaints w))).
  assert (Hsorted : StronglySorted (key_ge c_created_at) sorted)
    by apply (StronglySorted_merge_sort (key_ge c_created_at)).
  assert (Hperm : sorted ≡ₚ select_all (complaints w))
    by apply merge_sort_Permutation.
  split; [reflexivity|]. split; [|split].
  - rewrite length_map, length_take, Hperm, length_select_all. reflexivity.
  - rewrite <- (take_drop limit sorted) in Hsorted.
    apply StronglySorted_app_1_l in Hsorted. exact Hsorted.
  - exists (drop limit sorted). split; [rewrite take_drop; exact Hperm|].
    intros a b Ha Hb. rewrite <- (take_drop limit sorted) in Hsorted.
    apply (StronglySorted_app_1_elem_of _ _ _ _ _ Hsorted Ha Hb).
Qed.


(** ** What a redirect changes and what it leaves alone *)

(** X3: [mark_redirected] answers True exactly when the complaint is
    stored; for a missing id the world stays as it is; otherwise only the
    row under that id is rewritten: no complaint is added or removed, every
    other row, the photos, the layers, the files and the log stay. *)
Theorem mark_redirected_touches_one_row (k : Z) (platform : string) (w : World) :
  let r := mark_redirected k platform w in
  (fst r = Return true <-> is_Some (complaints w !! k))
  /\ (complaints w !! k = None -> r = (Return false, w))
  /\ (forall j, j <> k -> complaints (snd r) !! j = complaints w !! j)
  /\ dom (complaints (snd r)) = dom (complaints w)
  /\ complaint_photos (snd r) = complaint_photos w
  /\ static_layers (snd r) = static_layers w
  /\ user_layers (snd r) = user_layers w
  /\ files (snd r) = files w
  /\ log (snd r) = log w.
Proof.
  intros r. subst r. rewrite mark_redirected_eq.
  destruct (complaints w !! k) as [c|] eqn:Hc; cbn.
  - split; [split; [intros _; exists c; reflexivity | reflexivity]|].
    split; [discriminate|].
    split; [intros j Hj; apply lookup_insert_ne; congruence|].
    split; [|repeat split].
    rewrite dom_insert_L. apply (elem_of_dom_2 (complaints w)) in Hc.
    apply subseteq_union_1_L, singleton_subseteq_l. exact Hc.
  - split; [split; [discriminate | intros Hsome; inversion Hsome; discriminate]|].
    repeat split.
Qed.

(** X4: whatever the platform string, a redirect of a stored complaint
    never clears a flag, never leaves the status SUBMITTED, and keeps the
    row's id, texts, coordinates and creation time. *)
Theorem mark_redirected_never_unmarks
    (k : Z) (platform : string) (w : World) (c : Complaint) :
  complaints w !! k = Some c ->
  exists c',
    complaints (snd (mark_redirected k platform w)) !! k = Some c'
    /\ (c_facebook_redirected c = true -> c_facebook_redirected c' = true)
    /\ (c_lapor_redirected c = true -> c_lapor_redirected c' = true)
    /\ c_status c' <> SUBMITTED
    /\ c_id c' = c_id c /\ c_title c' = c_title c
    /\ c_description c' = c_description c
    /\ c_latitude c' = c_latitude c /\ c_longitude c' = c_longitude c
    /\ c_created_at c' = c_created_at c.
Proof.
  intros Hc. exists (apply_redirect platform c).
  rewrite mark_redirected_eq, Hc. cbn.
  split; [apply lookup_insert_eq|].
  unfold apply_redirect.
  destruct (String.eqb (Py.lower platform) "facebook"),
           (String.eqb (Py.lower platform) "lapor"),
           (c_facebook_redirected c) eqn:Ef, (c_lapor_redirected c) eqn:El;
    cbn; rewrite ?Ef, ?El; cbn; repeat split; congruence.
Qed.

Lemma mark_redirected_never_unmarks_witness :
  let w := snd (mark_redirected 1 "lapor"
                  (snd (create_complaint sample_complaint None
                          (empty_world sample_clock)))) in
  exists c c',
    complaints w !! 1 = Some c
    /\ c_lapor_redirected c = true
    /\ complaints (snd (mark_redirected 1 "Twitter" w)) !! 1 = Some c'
    /\ c_lapor_redirected c' = true
    /\ c_status c' <> SUBMITTED.
Proof.
  intros w.
  assert (Hc : exists c, complaints w !! 1 = Some c /\ c_lapor_redirected c = true).
  { eexists. split; [vm_compute; reflexivity | reflexivity]. }
  destruct Hc as (c & Hc & Hl).
  destruct (mark_redirected_never_unmarks 1 "Twitter" w c Hc)
    as (c' & Hc' & _ & Hkeep & Hst & _).
  exists c, c'. split; [exact Hc|]. split; [exact Hl|]. split; [exact Hc'|].
  split; [exact (Hkeep Hl) | exact Hst].
Defined.

Lemma apply_redirect_commute (p q : string) (c : Complaint) :
  apply_redirect p (apply_redirect q c) = apply_redirect q (apply_redirect p c).
Proof.
  destruct c as [i t d la lo ld sn se sp st ip fb lp cr]. unfold apply_redirect.
  destruct (String.eqb (Py.lower p) "facebook"),
           (String.eqb (Py.lower p) "lapor"),
           (String.eqb (Py.lower q) "facebook"),
           (String.eqb (Py.lower q) "lapor"), fb, lp; reflexivity.
Qed.

(** X5: two redirects commute: whichever complaints and platforms they
    name, and in whichever order they are made, the store ends the same. *)
Theorem mark_redirected_commutes
    (k1 k2 : Z) (p1 p2 : string) (w : World) :
  snd (mark_redirected k1 p1 (snd (mark_redirected k2 p2 w)))
  = snd (mark_redirected k2 p2 (snd (mark_redirected k1 p1 w))).
Proof.
  rewrite !mark_redirected_eq.
  destruct (decide (k1 = k2)) as [-> | Hne].
  - destruct (complaints w !! k2) as [c|] eqn:Hc; cbn.
    + rewrite !lookup_insert_eq. cbn. rewrite !insert_insert_eq.
      rewrite apply_redirect_commute. reflexivity.
    + rewrite Hc. reflexivity.
  - destruct (complaints w !! k2) as [c2|] eqn:Hc2;
      destruct (complaints w !! k1) as [c1|] eqn:Hc1; cbn;
      rewrite ?lookup_insert_ne by congruence; rewrite ?Hc1, ?Hc2; cbn;
      try reflexivity.
    rewrite (insert_insert_ne (complaints w) k1 k2) by congruence. reflexivity.
Qed.

(** ** Photos: reading back, and sharing a file *)

Lemma filter_perm {A} (f : A -> bool) (l l' : list A) :
  l ≡ₚ l' -> List.filter f l ≡ₚ List.filter f l'.
Proof.
  induction 1 as [|x l l' _ IH|x y l|l l' l'' _ IH1 _ IH2]; cbn.
  - reflexivity.
  - destruct (f x); [constructor|]; exact IH.
  - destruct (f x), (f y); try reflexivity. apply perm_swap.
  - etransitivity; eassumption.
Qed.

Lemma select_all_insert {A} (t : gmap Z A) (k : Z) (x : A) :
  t !! k = None -> select_all (<[ k := x ]> t) ≡ₚ x :: select_all t.
Proof.
  intros Hk. unfold select_all. rewrite (map_to_list_insert t k x Hk). reflexivity.
Qed.







(** ** Creating a complaint and reading it back *)


(** ** Saving an uploaded layer *)

Lemma save_user_layer_eq (hash : string -> Z)
    (ZipFile : list byte -> Outcome ZipArchive) (file_content : list byte)
    (filename : string) (file_type : FileType) (name description : string)
    (is_public : bool) (upload_ip : option string) (w : World) :
  save_user_layer hash ZipFile file_content filename file_type name description
    is_public upload_ip w
  = match process_file ZipFile file_type file_content filename with
    | Return geom_data =>
        let layer := saved_layer hash file_content filename file_type name
                       description is_public upload_ip geom_data w in
        (Return (Some layer),
         with_user_layers (<[ next_id (user_layers w) := layer ]> (user_layers w))
           (with_ticks (S (ticks w))
              (with_files
                 (<[ user_layer_file_path hash file_content filename
                     := file_content ]> (files w))
                 (with_dirs ({[ USER_LAYER_DIR ]} ∪ dirs w) w))))
    | Raise e =>
        (Return None,
         with_log (log w ++ ["Error saving user layer: " +:+ str_exn e]) w)
    end.
Proof.
  unfold save_user_layer, try_except, save_user_layer_body, bind, lift,
    process_file.
  destruct file_type; try reflexivity.
  destruct (process_kmz_file ZipFile file_content filename); reflexivity.
Qed.


Lemma public_layers_after_insert (w w' : World) (k : Z) (layer : UserLayer) :
  user_layers w !! k = None ->
  user_layers w' = <[ k := layer ]> (user_layers w) ->
  public_user_layers w'
  ≡ₚ (if ul_is_active layer && ul_is_public layer then [layer] else [])
     ++ public_user_layers w.
Proof.
  intros Hk Hw'. unfold public_user_layers, order_by_desc.
  rewrite !merge_sort_Permutation, Hw'.
  rewrite (filter_perm _ _ _ (select_all_insert _ k layer Hk)). cbn.
  destruct (ul_is_active layer && ul_is_public layer); reflexivity.
Qed.

(** X10: a layer that [save_user_layer] has stored is shown by
    [get_all_active_layers] exactly when it was saved as public: a public
    one joins the user layers listed and makes the answer one longer, a
    private one leaves the listed rows as they were; the static layers
    listed are the same either way. *)
Theorem saved_layer_is_listed_iff_public
    (hash : string -> Z) (isoformat : datetime -> string)
    (ZipFile : list byte -> Outcome ZipArchive)
    (file_content : list byte) (filename : string) (file_type : FileType)
    (name description : string) (is_public : bool) (upload_ip : option string)
    (w : World) (layer : UserLayer) :
  let run := save_user_layer hash ZipFile file_content filename file_type name
               description is_public upload_ip w in
  fst run = Return (Some layer) ->
  (layer ∈ public_user_layers (snd run) <-> is_public = true)
  /\ public_user_layers (snd run)
     ≡ₚ (if is_public then [layer] else []) ++ public_user_layers w
  /\ active_static_layers (snd run) = active_static_layers w
  /\ List.length (get_all_active_layers isoformat (snd run))
     = (List.length (get_all_active_layers isoformat w)
        + (if is_public then 1 else 0))%nat.
Proof.
  intros run. subst run. rewrite save_user_layer_eq.
  destruct (process_file ZipFile file_type file_content filename) as [g|e];
    cbn [fst snd]; [|discriminate].
  intros [= <-].
  set (layer := saved_layer _ _ _ _ _ _ _ _ _ _).
  set (w' := with_user_layers _ _).
  assert (Hperm : public_user_layers w'
                  ≡ₚ (if is_public then [layer] else []) ++ public_user_layers w).
  { apply (public_layers_after_insert w w' (next_id (user_layers w)) layer).
    - apply next_id_fresh.
    - reflexivity. }
  split; [|split; [exact Hperm|split; [reflexivity|]]].
  - rewrite Hperm. destruct is_public; cbn.
    + split; [reflexivity | intros _; left].
    + split; [|discriminate]. unfold public_user_layers, order_by_desc.
      rewrite merge_sort_Permutation, elem_of_where. intros [_ Hflags].
      exact Hflags.
  - unfold get_all_active_layers. rewrite !length_app, !length_map, Hperm.
    change (active_static_layers w') with (active_static_layers w).
    destruct is_public; cbn [List.length app]; lia.
Qed.

Lemma saved_layer_is_listed_iff_public_witness :
  let w := empty_world sample_clock in
  exists shown hidden,
    fst (save_user_layer sample_hash sample_ZipFile ["A"%byte] "public.kml" KML
           "Public Layer" "" true None w) = Return (Some shown)
    /\ shown ∈ public_user_layers
                 (snd (save_user_layer sample_hash sample_ZipFile ["A"%byte]
                         "public.kml" KML "Public Layer" "" true None w))
    /\ fst (save_user_layer sample_hash sample_ZipFile ["A"%byte] "private.kml"
              KML "Private Layer" "" false None w) = Return (Some hidden)
    /\ hidden ∉ public_user_layers
                  (snd (save_user_layer sample_hash sample_ZipFile ["A"%byte]
                          "private.kml" KML "Private Layer" "" false None w)).
Proof.
  intros w. eexists. eexists.
  split; [reflexivity|]. split.
  - apply (saved_layer_is_listed_iff_public sample_hash sample_isoformat
             sample_ZipFile ["A"%byte] "public.kml" KML "Public Layer" "" true
             None w _ eq_refl). reflexivity.
  - split; [reflexivity|]. intros Hin.
    apply (saved_layer_is_listed_iff_public sample_hash sample_isoformat
             sample_ZipFile ["A"%byte] "private.kml" KML "Private Layer" "" false
             None w _ eq_refl) in Hin. discriminate.
Defined.

(** ** What KMZ ingestion can answer *)




(** ** Seeding, then listing *)

Lemma seed_keeps_user_layers (w : World) :
  user_layers (snd (seed_default_layers w)) = user_layers w.
Proof.
  destruct (decide (static_layers w = ∅)) as [Hempty | Hseeded].
  - destruct w as [sl ul cs ps fs ds lg clk tk]. cbn [static_layers] in Hempty.
    subst sl. vm_compute. reflexivity.
  - rewrite (seed_noop_when_seeded w Hseeded). reflexivity.
Qed.

Lemma seeded_rows_listed (w : World) :
  static_layers w = ∅ ->
  active_static_layers (snd (seed_default_layers w)) = seeded_rows w.
Proof.
  intros Hempty. unfold active_static_layers.
  rewrite (seed_fills_empty_store w Hempty).
  vm_compute. reflexivity.
Qed.

(** X12: in a store without static layers, seeding and then listing shows
    the five catalog layers first, in catalog order (rice fields, irrigation,
    regency roads, regency boundaries, village boundaries), followed by the
    public user layers exactly as they were listed before; seeding never
    touches the user layers. *)
Theorem seeded_layers_are_listed
    (isoformat : datetime -> string) (w : World) :
  static_layers w = ∅ ->
  let seeded := snd (seed_default_layers w) in
  get_all_active_layers isoformat seeded
  = (List.map (static_layer_response isoformat) (seeded_rows w)
     ++ get_all_active_layers isoformat w)%list
  /\ lr_layer_type <$> take 5 (get_all_active_layers isoformat seeded)
     = ["rice_fields"; "irrigation"; "regency_roads"; "regency_boundaries";
        "village_boundaries"]
  /\ lr_id <$> take 5 (get_all_active_layers isoformat seeded) = [1; 2; 3; 4; 5]
  /\ user_layers seeded = user_layers w.
Proof.
  intros Hempty seeded.
  assert (Hall : get_all_active_layers isoformat seeded
                 = (List.map (static_layer_response isoformat) (seeded_rows w)
                    ++ get_all_active_layers isoformat w)%list).
  { unfold get_all_active_layers. subst seeded.
    rewrite (seeded_rows_listed w Hempty).
    unfold public_user_layers. rewrite seed_keeps_user_layers.
    unfold active_static_layers. rewrite Hempty. reflexivity. }
  split; [exact Hall|]. rewrite Hall.
  split; [reflexivity|]. split; [reflexivity|].
  apply seed_keeps_user_layers.
Qed.

Lemma seeded_layers_are_listed_witness :
  let w := empty_world sample_clock in
  static_layers w = ∅
  /\ lr_name <$> get_all_active_layers sample_isoformat
                   (snd (seed_default_layers w))
     = ["Sawah (Rice Fields)"; "Irigasi (Irrigation)";
        "Jalan Kabupaten (Regency Roads)";
        "Batas Kabupaten (Regency Boundaries)";
        "Batas Desa (Village Boundaries)"].
Proof.
  intros w. split; [reflexivity|].
  rewrite (proj1 (seeded_layers_are_listed sample_isoformat w eq_refl)).
  vm_compute. reflexivity.
Defined.

(** ** The upload handler *)

Lemma split_app_sep (sep : ascii) (stem rest : string) :
  exists h t, Py.split sep (stem +:+ String sep rest)
              = ((h :: t) ++ Py.split sep rest)%list.
Proof.
  induction stem as [|c stem (h & t & IH)].
  - change ("" +:+ String sep rest) with (String sep rest). cbn.
    rewrite Ascii.eqb_refl. exists EmptyString, []. reflexivity.
  - change (String c stem +:+ String sep rest)
      with (String c (stem +:+ String sep rest)).
    cbn [Py.split]. rewrite IH. destruct (Ascii.eqb c sep).
    + exists EmptyString, (h :: t). reflexivity.
    + exists (String c h), t. reflexivity.
Qed.

Lemma split_without_sep (sep : ascii) (s : string) :
  Py.contains_char sep s = false -> Py.split sep s = [s].
Proof.
  induction s as [|c s IH]; cbn; [reflexivity|].
  rewrite (Ascii.eqb_sym sep c). destruct (Ascii.eqb c sep); [discriminate|].
  intros Hs. rewrite (IH Hs). reflexivity.
Qed.

Lemma contains_char_app_sep (sep : ascii) (stem rest : string) :
  Py.contains_char sep (stem +:+ String sep rest) = true.
Proof.
  induction stem as [|c stem IH].
  - change ("" +:+ String sep rest) with (String sep rest). cbn.
    rewrite Ascii.eqb_refl. reflexivity.
  - change (String c stem +:+ String sep rest)
      with (String c (stem +:+ String sep rest)).
    cbn [Py.contains_char]. destruct (Ascii.eqb sep c); [reflexivity | exact IH].
Qed.

Lemma upload_extension_after_last_dot (stem ext : string) :
  Py.contains_char "." ext = false ->
  upload_extension (stem +:+ "." +:+ ext) = Py.lower ext.
Proof.
  intros Hext. unfold upload_extension.
  change (stem +:+ "." +:+ ext) with (stem +:+ String "." ext).
  rewrite contains_char_app_sep.
  destruct (split_app_sep "." stem ext) as (h & t & ->).
  rewrite (split_without_sep "." ext Hext). unfold Py.last_item.
  rewrite last_last. reflexivity.
Qed.

Lemma upload_extension_without_dot (filename : string) :
  Py.contains_char "." filename = false -> upload_extension filename = "".
Proof. intros Hno. unfold upload_extension. rewrite Hno. reflexivity. Qed.

(** X13: [handle_file_upload] saves nothing when the layer name is empty
    or the text after the last dot of the file name, lower-cased, is none of
    kml, kmz, shp; a file name without a dot is refused whatever it is.  The
    world then stays as it was and the page shows one negative notice. *)
Theorem handle_file_upload_refuses
    (hash : string -> Z) (ZipFile : list byte -> Outcome ZipArchive)
    (name_value desc_value : string) (public_value : bool)
    (e_name : string) (e_content : list byte) (w : World) :
  let run := handle_file_upload hash ZipFile name_value desc_value public_value
               e_name e_content w in
  (name_value = "" \/ upload_extension e_name ∉ ["kml"; "kmz"; "shp"] ->
     snd run = w
     /\ exists message, fst run = Return [Notify message "negative"])
  /\ (Py.contains_char "." e_name = false -> snd run = w)
  /\ (snd run <> w ->
      name_value <> "" /\ exists file_type,
        upload_extension e_name = FileType_value file_type).
Proof.
  intros run.
  assert (Hrefuse : name_value = "" \/ upload_extension e_name ∉ ["kml"; "kmz"; "shp"] ->
                    snd run = w
                    /\ exists message, fst run = Return [Notify message "negative"]).
  { subst run. unfold handle_file_upload. intros [-> | Hext].
    - cbn. split; [reflexivity | eexists; reflexivity].
    - destruct (String.eqb name_value "");
        [cbn; split; [reflexivity | eexists; reflexivity]|].
      rewrite (bool_decide_eq_false_2 _ Hext). cbn.
      split; [reflexivity | eexists; reflexivity]. }
  split; [exact Hrefuse|]. split.
  - intros Hno. apply Hrefuse. right.
    rewrite (upload_extension_without_dot e_name Hno).
    intros Hin. repeat (apply elem_of_cons in Hin as [Hin | Hin]; [discriminate|]).
    inversion Hin.
  - intros Hchanged.
    destruct (String.eqb_spec name_value "") as [Hname | Hname].
    { exfalso. apply Hchanged, Hrefuse. left. exact Hname. }
    split; [exact Hname|].
    destruct (decide (upload_extension e_name ∈ ["kml"; "kmz"; "shp"])) as [Hin | Hout].
    + apply elem_of_cons in Hin as [-> | Hin]; [exists KML; reflexivity|].
      apply elem_of_cons in Hin as [-> | Hin]; [exists KMZ; reflexivity|].
      apply elem_of_cons in Hin as [-> | Hin]; [exists SHP; reflexivity|].
      inversion Hin.
    + exfalso. apply Hchanged, Hrefuse. right. exact Hout.
Qed.

(** X14: an upload with a layer name, whose file name ends in a dot and an
    extension that is kml, kmz or shp in any letter case, is saved with the
    file type of that extension: the handler leaves the world as
    [save_user_layer] does with that type, an empty upload address and the
    form's name, description and visibility, and the page clears the form
    exactly when the layer was stored. *)
Theorem handle_file_upload_saves_by_extension
    (hash : string -> Z) (ZipFile : list byte -> Outcome ZipArchive)
    (name_value desc_value : string) (public_value : bool)
    (stem ext : string) (file_type : FileType) (e_content : list byte)
    (w : World) :
  name_value <> "" ->
  Py.contains_char "." ext = false ->
  Py.lower ext = FileType_value file_type ->
  let filename := stem +:+ "." +:+ ext in
  let saved := save_user_layer hash ZipFile e_content filename file_type
                 name_value desc_value public_value None w in
  let run := handle_file_upload hash ZipFile name_value desc_value public_value
               filename e_content w in
  snd run = snd saved
  /\ exists events,
       fst run = Return events
       /\ (ClearUploadForm ∈ events <-> exists layer, fst saved = Return (Some layer))
       /\ (Notify "Gagal mengunggah layer. Coba lagi." "negative" ∈ events
           <-> fst saved = Return None).
Proof.
  intros Hname Hext Hlower filename saved run. subst run saved.
  unfold handle_file_upload.
  destruct (String.eqb_spec name_value "") as [E|_]; [contradiction|].
  subst filename. rewrite (upload_extension_after_last_dot stem ext Hext), Hlower.
  set (filename := stem +:+ "." +:+ ext).
  assert (Htype : (if String.eqb (FileType_value file_type) "kml" then KML
                   else if String.eqb (FileType_value file_type) "kmz" then KMZ
                        else SHP) = file_type)
    by (destruct file_type; reflexivity).
  assert (Hin : bool_decide (FileType_value file_type ∈ ["kml"; "kmz"; "shp"]) = true)
    by (destruct file_type; reflexivity).
  rewrite Hin. cbn [negb]. cbv zeta. rewrite Htype.
  unfold bind. rewrite save_user_layer_eq.
  destruct (process_file ZipFile file_type e_content filename) as [g|e]; cbn.
  - split; [reflexivity|]. eexists. split; [reflexivity|]. split.
    + split; [intros _; eexists; reflexivity|]. intros _. right. left.
    + split; [|discriminate]. intros Hin'.
      repeat (apply elem_of_cons in Hin' as [Hin' | Hin']; [discriminate|]).
      inversion Hin'.
  - split; [reflexivity|]. eexists. split; [reflexivity|]. split.
    + split; [|intros [layer Hl]; discriminate]. intros Hin'.
      repeat (apply elem_of_cons in Hin' as [Hin' | Hin']; [discriminate|]).
      inversion Hin'.
    + split; [reflexivity|]. intros _. left.
Qed.

Lemma handle_file_upload_saves_by_extension_witness :
  let w := empty_world sample_clock in
  let run := handle_file_upload sample_hash sample_ZipFile "Batas" "" true
               "MAP.Kml" ["A"%byte] w in
  snd run = snd (save_user_layer sample_hash sample_ZipFile ["A"%byte] "MAP.Kml"
                   KML "Batas" "" true None w)
  /\ size (user_layers (snd run)) = 1%nat.
Proof.
  intros w run. split; [|vm_compute; reflexivity].
  assert (Hname : "Batas" <> "") by discriminate.
  exact (proj1 (handle_file_upload_saves_by_extension sample_hash sample_ZipFile
                  "Batas" "" true "MAP" "Kml" KML ["A"%byte] w Hname eq_refl
                  eq_refl)).
Defined.

(** ** Submitting a complaint from the page *)

Lemma attach_photos_spec (hash : string -> Z) (k : Z)
    (items : list (nat * FileInfo)) :
  forall w,
    let r := attach_photos hash k items w in
    fst r = Return tt
    /\ complaints (snd r) = complaints w
    /\ size (complaint_photos (snd r))
       = (size (complaint_photos w)
          + List.length (List.filter (fun item => attachable (snd item)) items))%nat
    /\ (forall j p, complaint_photos w !! j = Some p ->
                    complaint_photos (snd r) !! j = Some p)
    /\ (forall j p, complaint_photos (snd r) !! j = Some p ->
          complaint_photos w !! j = Some p
          \/ exists i file_info,
               (i, file_info) ∈ items /\ photo_of_upload k i file_info p).
Proof.
  induction items as [|[i file_info] items IH]; intros w r; subst r.
  { cbn. split; [reflexivity|]. split; [reflexivity|].
    split; [lia|]. split; [auto|]. intros j p Hp. left. exact Hp. }
  cbn [attach_photos List.filter snd].
  unfold attachable at 1.
  destruct (fi_content file_info) as [content|] eqn:Hcontent.
  2:{ destruct (IH w) as (Hret & Hcs & Hsize & Hold & Hnew).
      split; [exact Hret|]. split; [exact Hcs|]. split; [exact Hsize|].
      split; [exact Hold|]. intros j p Hp.
      destruct (Hnew j p Hp) as [Hw | (i' & fi' & Hin & Hrow)]; [left; exact Hw|].
      right. exists i', fi'. split; [right; exact Hin | exact Hrow]. }
  fold (upload_mime file_info).
  set (mime := upload_mime file_info).
  unfold bind.
  destruct (decide (mime ∈ ALLOWED_PHOTO_TYPES)) as [Hmime | Hmime].
  - destruct (Z.leb_spec (Py.len content) MAX_PHOTO_SIZE) as [Hfit | Hbig].
    + rewrite (bool_decide_eq_true_2 _ Hmime). cbn [andb].
      pose proof (add_photo_accepts hash k content (fi_name file_info) mime ""
                    (Z.of_nat i) w Hmime Hfit) as Hrun.
      cbv zeta in Hrun. rewrite Hrun.
      set (photo := stored_photo hash k content (fi_name file_info) mime ""
                      (Z.of_nat i) w).
      set (w1 := with_complaint_photos _ _).
      destruct (IH w1) as (Hret & Hcs & Hsize & Hold & Hnew).
      assert (Hfresh : complaint_photos w !! next_id (complaint_photos w) = None)
        by apply next_id_fresh.
      split; [exact Hret|]. split; [exact Hcs|]. split.
      { rewrite Hsize. subst w1. cbn [complaint_photos with_complaint_photos].
        rewrite (map_size_insert_None _ _ _ Hfresh). cbn [List.length]. lia. }
      split.
      { intros j p Hp. apply Hold. subst w1. cbn.
        rewrite lookup_insert_ne; [exact Hp|]. intros <-. congruence. }
      intros j p Hp.
      destruct (Hnew j p Hp) as [Hw1 | (i' & fi' & Hin & Hrow)].
      * subst w1. cbn in Hw1.
        apply lookup_insert_Some in Hw1 as [[_ <-] | [_ Hw]]; [|left; exact Hw].
        right. exists i, file_info. split; [left|].
        unfold photo_of_upload, attachable. rewrite Hcontent.
        fold mime. rewrite (bool_decide_eq_true_2 _ Hmime).
        apply Z.leb_le in Hfit. rewrite Hfit. repeat split.
      * right. exists i', fi'. split; [right; exact Hin | exact Hrow].
    + rewrite (bool_decide_eq_true_2 _ Hmime). cbn [andb].
      destruct (add_photo_rejected_leaves_store hash k content (fi_name file_info)
                  mime "" (Z.of_nat i) w (or_intror Hbig))
        as (Hnone & Hps & _ & Hcs0).
      destruct (add_photo_to_complaint hash k content (fi_name file_info) mime ""
                  (Z.of_nat i) w) as [o w1].
      cbn [fst snd] in *. subst o.
      destruct (IH w1) as (Hret & Hcs & Hsize & Hold & Hnew).
      rewrite Hps in *. rewrite Hcs0 in *.
      split; [exact Hret|]. split; [exact Hcs|]. split; [exact Hsize|].
      split; [exact Hold|]. intros j p Hp.
      destruct (Hnew j p Hp) as [Hw | (i' & fi' & Hin & Hrow)]; [left; exact Hw|].
      right. exists i', fi'. split; [right; exact Hin | exact Hrow].
  - rewrite (bool_decide_eq_false_2 _ Hmime). cbn [andb].
    destruct (add_photo_rejected_leaves_store hash k content (fi_name file_info)
                mime "" (Z.of_nat i) w (or_introl Hmime))
      as (Hnone & Hps & _ & Hcs0).
    destruct (add_photo_to_complaint hash k content (fi_name file_info) mime ""
                (Z.of_nat i) w) as [o w1].
    cbn [fst snd] in *. subst o.
    destruct (IH w1) as (Hret & Hcs & Hsize & Hold & Hnew).
    rewrite Hps in *. rewrite Hcs0 in *.
    split; [exact Hret|]. split; [exact Hcs|]. split; [exact Hsize|].
    split; [exact Hold|]. intros j p Hp.
    destruct (Hnew j p Hp) as [Hw | (i' & fi' & Hin & Hrow)]; [left; exact Hw|].
    right. exists i', fi'. split; [right; exact Hin | exact Hrow].
Qed.



Lemma submit_complaint_eq (hash : string -> Z) (Decimal_of_str : float -> Decimal)
    (title_value desc_value location_desc_value name_value email_value
       phone_value : string)
    (photo_upload_value : option (list FileInfo)) (w : World) :
  title_value <> "" -> desc_value <> "" ->
  let k := next_id (complaints w) in
  let c := mkComplaint (Some k) title_value desc_value
             (Decimal_of_str (-8.55)%float) (Decimal_of_str 116.15%float)
             location_desc_value (or_none name_value) (or_none email_value)
             (or_none phone_value) SUBMITTED None false false
             (clock w (ticks w)) in
  let w1 := with_complaints (<[ k := c ]> (complaints w))
              (with_ticks (S (ticks w)) w) in
  submit_complaint hash Decimal_of_str title_value desc_value location_desc_value
    name_value email_value phone_value photo_upload_value w
  = (Return [CloseDialog; ShowRedirectDialog k],
     snd (attach_photos hash k (enumerate (uploads_of photo_upload_value)) w1)).
Proof.
  intros Htitle Hdesc. cbv zeta. unfold submit_complaint.
  destruct (String.eqb_spec title_value "") as [E|_]; [contradiction|].
  destruct (String.eqb_spec desc_value "") as [E|_]; [contradiction|].
  cbn [orb]. unfold bind at 1.
  unfold create_complaint, try_except, create_complaint_body, bind at 1, utcnow,
    session_add_complaint, ret, complaint_set_id.
  cbn -[attach_photos enumerate]. unfold bind.
  destruct photo_upload_value as [files|]; cbn -[attach_photos enumerate].
  - match goal with
    | |- context [attach_photos hash ?k (enumerate files) ?w1] =>
        destruct (attach_photos_spec hash k (enumerate files) w1) as (Hret & _);
        destruct (attach_photos hash k (enumerate files) w1) as [o w2]
    end.
    cbn in Hret. subst o. reflexivity.
  - reflexivity.
Qed.




(** ** What the page can do to the complaint store *)

Lemma redirect_to_facebook_world (k : Z) (w : World) :
  snd (redirect_to_facebook k w) = snd (mark_redirected k "facebook" w).
Proof.
  unfold redirect_to_facebook, bind. rewrite mark_redirected_eq.
  destruct (complaints w !! k); reflexivity.
Qed.

Lemma redirect_to_lapor_world (k : Z) (w : World) :
  snd (redirect_to_lapor k w) = snd (mark_redirected k "lapor" w).
Proof.
  unfold redirect_to_lapor, bind. rewrite mark_redirected_eq.
  destruct (complaints w !! k); reflexivity.
Qed.

Lemma apply_redirect_keeps_id (platform : string) (c : Complaint) :
  c_id (apply_redirect platform c) = c_id c.
Proof.
  destruct c as [i t d la lo ld sn se sp st ip fb lp cr]. unfold apply_redirect.
  destruct (String.eqb (Py.lower platform) "facebook"),
           (String.eqb (Py.lower platform) "lapor"), fb, lp; reflexivity.
Qed.

Lemma mark_redirected_keeps (k : Z) (platform : string) (w : World) :
  known_platform platform ->
  store_matches_flags w -> keys_are_ids w ->
  let w' := snd (mark_redirected k platform w) in
  store_matches_flags w' /\ keys_are_ids w'
  /\ dom (complaints w) ⊆ dom (complaints w').
Proof.
  intros Hknown Hflags Hids w'. subst w'. rewrite mark_redirected_eq.
  destruct (complaints w !! k) as [c0|] eqn:Hc0; cbn; [|auto].
  split; [|split].
  - intros j c Hlook. cbn in Hlook. apply lookup_insert_Some in Hlook as [[_ <-] | [_ Hlook]].
    + apply apply_redirect_known, Hknown.
    + eauto.
  - intros j c Hlook. cbn in Hlook. apply lookup_insert_Some in Hlook as [[<- <-] | [_ Hlook]].
    + rewrite apply_redirect_keeps_id. exact (Hids k c0 Hc0).
    + eauto.
  - rewrite dom_insert. apply union_subseteq_r.
Qed.

Lemma submit_complaint_keeps (hash : string -> Z)
    (Decimal_of_str : float -> Decimal)
    (t d l n e p : string) (photos : option (list FileInfo)) (w : World) :
  store_matches_flags w -> keys_are_ids w ->
  let w' := snd (submit_complaint hash Decimal_of_str t d l n e p photos w) in
  store_matches_flags w' /\ keys_are_ids w'
  /\ dom (complaints w) ⊆ dom (complaints w').
Proof.
  intros Hflags Hids w'. subst w'.
  destruct (String.eqb_spec t "") as [-> | Ht]; [cbn; auto|].
  destruct (String.eqb_spec d "") as [-> | Hd].
  { unfold submit_complaint. rewrite orb_true_r. cbn. auto. }
  rewrite (submit_complaint_eq hash Decimal_of_str t d l n e p photos w Ht Hd).
  cbv zeta. cbn [snd].
  match goal with
  | |- context [attach_photos hash ?k ?items ?w1] =>
      destruct (attach_photos_spec hash k items w1) as (_ & Hcs & _)
  end.
  unfold store_matches_flags, keys_are_ids. rewrite Hcs. cbn. split; [|split].
  - intros j c Hlook. apply lookup_insert_Some in Hlook as [[_ <-] | [_ Hlook]].
    + reflexivity.
    + eauto.
  - intros j c Hlook. cbn in Hlook. apply lookup_insert_Some in Hlook as [[<- <-] | [_ Hlook]].
    + reflexivity.
    + eauto.
  - rewrite dom_insert. apply union_subseteq_r.
Qed.

Lemma run_action_keeps (hash : string -> Z) (Decimal_of_str : float -> Decimal)
    (w : World) (action : PageAction) :
  store_matches_flags w -> keys_are_ids w ->
  let w' := run_action hash Decimal_of_str w action in
  store_matches_flags w' /\ keys_are_ids w'
  /\ dom (complaints w) ⊆ dom (complaints w').
Proof.
  intros Hflags Hids. destruct action as [t d l n e p photos | k | k];
    cbn [run_action].
  - apply submit_complaint_keeps; assumption.
  - rewrite redirect_to_facebook_world.
    apply mark_redirected_keeps; [left; reflexivity | assumption..].
  - rewrite redirect_to_lapor_world.
    apply mark_redirected_keeps; [right; reflexivity | assumption..].
Qed.

(** X17: whatever a visitor does on the page (submitting complaints, with
    or without photos, and following either redirect for any complaint id,
    in any order), every stored complaint keeps its status in step with its
    two redirect flags and carries the key it is stored under, and no
    complaint is ever removed.  A complaint thus reads SUBMITTED exactly
    while neither redirect has been followed for it. *)
Theorem page_actions_keep_status_in_step
    (hash : string -> Z) (Decimal_of_str : float -> Decimal)
    (actions : list PageAction) (w : World) :
  store_matches_flags w -> keys_are_ids w ->
  let w' := run_actions hash Decimal_of_str actions w in
  store_matches_flags w' /\ keys_are_ids w'
  /\ dom (complaints w) ⊆ dom (complaints w')
  /\ (forall k c, complaints w' !! k = Some c ->
        (c_status c = SUBMITTED
         <-> c_facebook_redirected c = false /\ c_lapor_redirected c = false)
        /\ (c_status c = COMPLETED
            <-> c_facebook_redirected c = true /\ c_lapor_redirected c = true)).
Proof.
  intros Hflags Hids w'. subst w'.
  assert (Hkeep : store_matches_flags (run_actions hash Decimal_of_str actions w)
                  /\ keys_are_ids (run_actions hash Decimal_of_str actions w)
                  /\ dom (complaints w)
                     ⊆ dom (complaints (run_actions hash Decimal_of_str actions w))).
  { revert w Hflags Hids. induction actions as [|action actions IH];
      intros w Hflags Hids; [cbn; auto|].
    destruct (run_action_keeps hash Decimal_of_str w action Hflags Hids)
      as (Hflags' & Hids' & Hdom).
    destruct (IH _ Hflags' Hids') as (Hf & Hi & Hd).
    cbn. split; [exact Hf|]. split; [exact Hi|].
    etransitivity; eassumption. }
  destruct Hkeep as (Hf & Hi & Hd).
  split; [exact Hf|]. split; [exact Hi|]. split; [exact Hd|].
  intros k c Hc. specialize (Hf k c Hc). unfold status_matches_flags in Hf.
  rewrite Hf.
  destruct (c_facebook_redirected c), (c_lapor_redirected c); cbn;
    split; split; try tauto; try discriminate; intros [? ?]; discriminate.
Qed.

Lemma page_actions_keep_status_in_step_witness :
  let w := run_actions sample_hash west_lombok_decimal
             [ActSubmit "Jalan rusak" "Jalan berlubang" "" "" "" "" None;
              ActRedirectLapor 1; ActRedirectFacebook 7;
              ActRedirectFacebook 1]
             (empty_world sample_clock) in
  store_matches_flags w
  /\ c_status <$> complaints w !! 1 = Some COMPLETED.
Proof.
  intros w. split; [|vm_compute; reflexivity].
  assert (Hids : keys_are_ids (empty_world sample_clock)).
  { intros k c Hc. cbn in Hc. rewrite lookup_empty in Hc. discriminate. }
  exact (proj1 (page_actions_keep_status_in_step sample_hash west_lombok_decimal
                  _ (empty_world sample_clock)
                  (empty_world_matches_flags sample_clock) Hids)).
Defined.

(** ** Identifiers in the answers *)

Lemma run_call_keeps_ids (hash : string -> Z) (w : World) (call : ComplaintCall) :
  keys_are_ids w -> keys_are_ids (run_call hash w call).
Proof.
  intros Hids k c.
  destruct call as [data ip | cid fc fn mt cap ord | cid p]; cbn [run_call].
  - destruct (create_complaint_eq data ip w) as (c0 & _ & _ & _ & Hid & ->). cbn.
    intros Hlook. apply lookup_insert_Some in Hlook as [[<- <-] | [_ Hlook]].
    + exact Hid.
    + eauto.
  - rewrite add_photo_keeps_complaints. apply Hids.
  - rewrite mark_redirected_eq.
    destruct (complaints w !! cid) as [c0|] eqn:Hc0; cbn; [|apply Hids].
    intros Hlook. apply lookup_insert_Some in Hlook as [[<- <-] | [_ Hlook]].
    + rewrite apply_redirect_keeps_id. exact (Hids cid c0 Hc0).
    + eauto.
Qed.

Lemma select_all_ids (w : World) :
  keys_are_ids w ->
  (fun c => default 0 (c_id c)) <$> select_all (complaints w)
  = (map_to_list (complaints w)).*1.
Proof.
  intros Hids. unfold select_all. rewrite <- list_fmap_compose.
  apply list_fmap_ext. intros i [k c] Hi. cbn.
  apply list_elem_of_lookup_2, elem_of_map_to_list in Hi.
  rewrite (Hids k c Hi). reflexivity.
Qed.

(** X18: service calls of any kind, with any platform strings, keep every
    complaint under the key it carries as id.  In such a store
    [get_complaint] answers with the id it was asked for, and the answers
    of [get_recent_complaints] and of [get_complaints_in_area] never show
    one id twice. *)
Theorem answers_carry_their_keys
    (hash : string -> Z) (isoformat : datetime -> string)
    (Decimal_of_str : float -> Decimal)
    (calls : list ComplaintCall) (w : World) :
  keys_are_ids w ->
  let w' := run_calls hash calls w in
  keys_are_ids w'
  /\ (forall k r, get_complaint isoformat k w' = Some r -> cr_id r = k)
  /\ (forall limit, NoDup (cr_id <$> get_recent_complaints isoformat limit w'))
  /\ (forall south west north east,
        NoDup (cr_id <$> get_complaints_in_area isoformat Decimal_of_str
                           south west north east w')).
Proof.
  intros Hids w'.
  assert (Hids' : keys_are_ids w').
  { subst w'. revert w Hids. induction calls as [|call calls IH]; intros w Hids;
      [exact Hids|].
    cbn. apply IH, run_call_keeps_ids, Hids. }
  clearbody w'. split; [exact Hids'|].
  assert (Hall : NoDup ((fun c => default 0 (c_id c)) <$> select_all (complaints w'))).
  { rewrite (select_all_ids w' Hids'). apply NoDup_fst_map_to_list. }
  split; [|split].
  - intros k r. unfold get_complaint.
    destruct (complaints w' !! k) as [c|] eqn:Hc; [|discriminate].
    intros [= <-]. cbn. rewrite (Hids' k c Hc). reflexivity.
  - intros limit. unfold get_recent_complaints, recent_complaints.
    change (List.map (complaint_response isoformat w')) with
      (fmap (M := list) (complaint_response isoformat w')).
    rewrite <- list_fmap_compose.
    apply (sublist_NoDup _
             ((fun c => default 0 (c_id c))
              <$> order_by_desc c_created_at (select_all (complaints w')))).
    + unfold order_by_desc. rewrite merge_sort_Permutation. exact Hall.
    + apply fmap_sublist, sublist_take.
  - intros south west north east.
    unfold get_complaints_in_area, complaints_in_area.
    change (List.map (complaint_response isoformat w')) with
      (fmap (M := list) (complaint_response isoformat w')).
    rewrite <- list_fmap_compose. unfold order_by_desc.
    rewrite merge_sort_Permutation.
    apply (sublist_NoDup _ ((fun c => default 0 (c_id c))
                            <$> select_all (complaints w'))); [exact Hall|].
    apply fmap_sublist.
    generalize (select_all (complaints w')). intros rows.
    induction rows as [|c rows IH]; cbn; [constructor|].
    destruct (in_area _ _ _ _ c); [apply sublist_skip | apply sublist_cons];
      exact IH.
Qed.

Lemma answers_carry_their_keys_witness :
  let w := run_calls sample_hash sample_calls (empty_world sample_clock) in
  keys_are_ids w
  /\ NoDup (cr_id <$> get_recent_complaints sample_isoformat 10 w).
Proof.
  intros w.
  assert (Hids : keys_are_ids (empty_world sample_clock)).
  { intros k c Hc. cbn in Hc. rewrite lookup_empty in Hc. discriminate. }
  destruct (answers_carry_their_keys sample_hash sample_isoformat
              west_lombok_decimal sample_calls (empty_world sample_clock) Hids)
    as (Hkeys & _ & Hrecent & _).
  split; [exact Hkeys | exact (Hrecent 10%nat)].
Defined.

(** ** The two photo listings *)

(** X19: the photos [get_recent_complaints] and [get_complaints_in_area]
    attach to a complaint stored under its own id are those [get_complaint]
    shows for that id, in the same sequence of display orders; the two
    listings can differ only in the order of photos with equal display
    order.  A complaint that carries no id is shown without photos. *)
Theorem photo_listings_agree
    (isoformat : datetime -> string) (k : Z) (c : Complaint) (w : World) :
  (c_id c = Some k ->
     photos_of (c_id c) w ≡ₚ photos_by_order_and_time k w
     /\ p_display_order <$> photos_of (c_id c) w
        = p_display_order <$> photos_by_order_and_time k w
     /\ forall r, get_complaint isoformat k w = Some r ->
          cr_photos (complaint_response isoformat w c) ≡ₚ cr_photos r
          /\ pr_display_order <$> cr_photos (complaint_response isoformat w c)
             = pr_display_order <$> cr_photos r)
  /\ (c_id c = None -> cr_photos (complaint_response isoformat w c) = []).
Proof.
  split.
  - intros Hid. rewrite Hid.
    assert (Hperm : photos_of (Some k) w ≡ₚ photos_by_order_and_time k w).
    { unfold photos_of, photos_by_order_and_time, order_by, order_by2.
      rewrite !merge_sort_Permutation.
      replace (List.filter (fun p => bool_decide (Some (p_complaint_id p) = Some k))
                 (select_all (complaint_photos w)))
        with (List.filter (fun p => Z.eqb (p_complaint_id p) k)
                (select_all (complaint_photos w))); [reflexivity|].
      apply filter_ext. intros p.
      destruct (Z.eqb_spec (p_complaint_id p) k) as [-> | Hne].
      - symmetry. apply bool_decide_eq_true_2. reflexivity.
      - symmetry. apply bool_decide_eq_false_2. congruence. }
    assert (Horders : p_display_order <$> photos_of (Some k) w
                      = p_display_order <$> photos_by_order_and_time k w).
    { apply (StronglySorted_unique Z.le).
      - apply StronglySorted_fmap with (R1 := key_le p_display_order);
          [intros a b Hab; exact Hab|].
        apply (StronglySorted_merge_sort (key_le p_display_order)).
      - apply StronglySorted_fmap
          with (R1 := key2_le p_display_order p_created_at).
        + intros a b Hab. unfold key2_le in Hab. lia.
        + apply (StronglySorted_merge_sort (key2_le p_display_order p_created_at)).
      - rewrite Hperm. reflexivity. }
    split; [exact Hperm|]. split; [exact Horders|].
    intros r. unfold get_complaint.
    destruct (complaints w !! k) as [c'|]; [|discriminate].
    intros [= <-]. cbn. rewrite Hid. split.
    + change (List.map photo_response) with (fmap (M := list) photo_response).
      rewrite Hperm. reflexivity.
    + change (List.map photo_response) with (fmap (M := list) photo_response).
      rewrite <- !list_fmap_compose. exact Horders.
  - intros Hid. cbn. rewrite Hid. unfold photos_of, order_by.
    replace (List.filter (fun p => bool_decide (Some (p_complaint_id p) = None))
               (select_all (complaint_photos w))) with (@nil ComplaintPhoto);
      [reflexivity|].
    induction (select_all (complaint_photos w)) as [|p l IH]; [reflexivity|].
    cbn. exact IH.
Qed.

(** ** Coordinates that pass validation *)

Lemma is_finite_SF (x : float) :
  is_finite x
  = match Prim2SF x with
    | S754_zero _ | S754_finite _ _ _ => true
    | _ => false
    end.
Proof.
  unfold is_finite, is_nan, is_infinity.
  rewrite !FloatAxioms.eqb_spec, FloatAxioms.abs_spec.
  destruct (Prim2SF x) as [s|s| |s m e]; try reflexivity.
  - destruct s; reflexivity.
  - unfold SFeqb, SFcompare, SFabs.
    rewrite Z.compare_refl, Pos.compare_cont_refl.
    destruct s; reflexivity.
Qed.

Lemma leb_between_finite (low high x : float) :
  is_finite low = true -> is_finite high = true ->
  (low <=? x)%float = true -> (x <=? high)%float = true ->
  is_finite x = true.
Proof.
  rewrite !is_finite_SF, !FloatAxioms.leb_spec.
  destruct (Prim2SF x) as [s|s| |s m e]; try reflexivity.
  - destruct s.
    + destruct (Prim2SF low) as [sl|sl| |sl ml el]; try discriminate;
        intros _ _ H; cbn in H; discriminate.
    + destruct (Prim2SF high) as [sh|sh| |sh mh eh]; try discriminate;
        intros _ _ _ H; cbn in H; discriminate.
  - intros _ _ H. destruct (Prim2SF low); cbn in H; discriminate.
Qed.

(** X20: coordinates that [validate_coordinates] accepts are finite
    numbers: a NaN or an infinite latitude or longitude is refused. *)
Theorem validate_coordinates_accepts_finite_only (latitude longitude : float) :
  validate_coordinates latitude longitude = true ->
  is_finite latitude = true /\ is_finite longitude = true
  /\ is_nan latitude = false /\ is_nan longitude = false.
Proof.
  unfold validate_coordinates. intros Hvalid.
  apply andb_prop in Hvalid as [Hvalid Heast].
  apply andb_prop in Hvalid as [Hvalid Hwest].
  apply andb_prop in Hvalid as [Hsouth Hnorth].
  assert (Hlat : is_finite latitude = true)
    by (apply (leb_between_finite (bound "south") (bound "north"));
        [reflexivity | reflexivity | exact Hsouth | exact Hnorth]).
  assert (Hlon : is_finite longitude = true)
    by (apply (leb_between_finite (bound "west") (bound "east"));
        [reflexivity | reflexivity | exact Hwest | exact Heast]).
  split; [exact Hlat|]. split; [exact Hlon|].
  unfold is_finite in Hlat, Hlon.
  apply negb_true_iff, orb_false_iff in Hlat as [Hlat _].
  apply negb_true_iff, orb_false_iff in Hlon as [Hlon _].
  split; assumption.
Qed.

Lemma validate_coordinates_accepts_finite_only_witness :
  validate_coordinates (-8.55)%float 116.15%float = true
  /\ is_finite (-8.55)%float = true
  /\ validate_coordinates nan 116.15%float = false
  /\ validate_coordinates (-8.55)%float infinity = false.
Proof.
  split; [reflexivity|]. split; [|split; reflexivity].
  exact (proj1 (validate_coordinates_accepts_finite_only (-8.55)%float
                  116.15%float eq_refl)).
Defined.

(** ** Repeating a redirect, and the newest complaint *)

Lemma apply_redirect_idempotent (platform : string) (c : Complaint) :
  apply_redirect platform (apply_redirect platform c) = apply_redirect platform c.
Proof.
  destruct c as [i t d la lo ld sn se sp st ip fb lp cr]. unfold apply_redirect.
  destruct (String.eqb (Py.lower platform) "facebook"),
           (String.eqb (Py.lower platform) "lapor"), fb, lp; reflexivity.
Qed.

(** X21: repeating a redirect changes nothing more: for every complaint id
    and every platform string, known or not, the second of two equal
    [mark_redirected] calls answers as the first did and leaves the world as
    the first left it. *)
Theorem mark_redirected_idempotent (k : Z) (platform : string) (w : World) :
  let once := mark_redirected k platform w in
  mark_redirected k platform (snd once) = once.
Proof.
  intros once. subst once. rewrite !mark_redirected_eq.
  destruct (complaints w !! k) as [c|] eqn:Hc; cbn.
  - rewrite lookup_insert_eq. cbn. rewrite insert_insert_eq.
    rewrite apply_redirect_idempotent. reflexivity.
  - rewrite Hc. reflexivity.
Qed.




